(** * Alphas User Management API: a shallow embedding and its properties

    The development follows the layers of the application:
    - [PyStr]: Python [str] values as sequences of Unicode code points,
      with [str.strip] and [str(int)];
    - [Exc]: the exception classes of [app/models/exception.py];
    - [Domain]: [UserStatus] and [User] of [app/models/domain.py];
    - [Storage]: the [users] table declared in [app/repository/sql.py];
    - the state-and-exception monad in which the methods run;
    - [SQLAlchemyUserRepository] ([app/repository/sql.py]);
    - [UserService] ([app/services/userService.py]);
    - the routes and exception handlers ([app/api/routes.py], [app/main.py]).

    Logging calls have no effect on results and are left out. *)

From Stdlib Require Import ZArith NArith List String Ascii Bool Lia.
From Stdlib Require Import DecimalString.
Import ListNotations.

Local Open Scope Z_scope.

(* ================================================================== *)
(** ** Python strings *)
(* ================================================================== *)

Module PyStr.

(** A Python [str] is a sequence of Unicode code points. *)
Definition str : Type := list N.

Definition str_eq_dec : forall a b : str, {a = b} + {a <> b} :=
  list_eq_dec N.eq_dec.

(** [a == b] on strings. *)
Definition str_eqb (a b : str) : bool :=
  if str_eq_dec a b then true else false.

(** UTF-8 decoding of the bytes of a source literal. *)
Fixpoint utf8_decode (bs : list N) : str :=
  match bs with
  | [] => []
  | b0 :: r0 =>
    if (b0 <? 128)%N then b0 :: utf8_decode r0
    else if (b0 <? 224)%N then
      match r0 with
      | b1 :: r1 =>
        N.lor (N.shiftl (N.land b0 31) 6) (N.land b1 63) :: utf8_decode r1
      | [] => []
      end
    else if (b0 <? 240)%N then
      match r0 with
      | b1 :: b2 :: r2 =>
        N.lor (N.shiftl (N.land b0 15) 12)
          (N.lor (N.shiftl (N.land b1 63) 6) (N.land b2 63)) :: utf8_decode r2
      | _ => []
      end
    else
      match r0 with
      | b1 :: b2 :: b3 :: r3 =>
        N.lor (N.shiftl (N.land b0 7) 18)
          (N.lor (N.shiftl (N.land b1 63) 12)
             (N.lor (N.shiftl (N.land b2 63) 6) (N.land b3 63)))
          :: utf8_decode r3
      | _ => []
      end
  end.

Definition bytes_of_string (s : string) : list N :=
  List.map N_of_ascii (list_ascii_of_string s).

(** A string literal of the source. *)
Definition lit (s : string) : str := utf8_decode (bytes_of_string s).

(** [str.isspace] on one character: the code points Python treats as
    whitespace (general category Zs, or bidirectional class WS, B or S). *)
Definition isspace (c : N) : bool :=
  ((9 <=? c) && (c <=? 13) || (28 <=? c) && (c <=? 32)
   || (c =? 133) || (c =? 160) || (c =? 5760)
   || (8192 <=? c) && (c <=? 8202)
   || (c =? 8232) || (c =? 8233) || (c =? 8239) || (c =? 8287)
   || (c =? 12288))%N.

Fixpoint lstrip (s : str) : str :=
  match s with
  | [] => []
  | c :: r => if isspace c then lstrip r else s
  end.

Definition rstrip (s : str) : str := rev (lstrip (rev s)).

(** [s.strip()]: leading and trailing whitespace removed. *)
Definition strip (s : str) : str := rstrip (lstrip s).

(** Truth value of a string: [not s] holds for the empty string only. *)
Definition truthy (s : str) : bool :=
  match s with [] => false | _ :: _ => true end.

(** [str(n)] for an integer: its decimal digits, with a leading minus sign
    for a negative number. *)
Definition str_of_int (n : Z) : str :=
  bytes_of_string (NilEmpty.string_of_int (Z.to_int n)).

(** [s.startswith(p)]. *)
Fixpoint startswith (p s : str) : bool :=
  match p, s with
  | [], _ => true
  | a :: p', b :: s' => (a =? b)%N && startswith p' s'
  | _ :: _, [] => false
  end.

End PyStr.
Export PyStr.

(** Literals are compared as written and decoded only where a character
    is inspected. *)
Strategy 100 [lit].


(* ================================================================== *)
(** ** Exceptions ([app/models/exception.py]) *)
(* ================================================================== *)

Module Exc.

(** The application's exception classes.  Every class derives from
    [AppBaseException]. *)
Inductive exc_class : Type :=
| AppBaseException
| UserNotFoundException
| DuplicateEmailException
| InvalidAgeException
| InvalidUserNameException.

Definition exc_class_eq_dec : forall a b : exc_class, {a = b} + {a <> b}.
Proof. decide equality. Defined.

(** A raised exception: an instance of an application class with its
    [message] attribute, or an exception of a library ([ValidationError],
    [IntegrityError], [ValueError]) with the text [str(e)] gives. *)
Inductive pyexc : Type :=
| App (cls : exc_class) (message : str)
| Other (cls : string) (text : str).

(** [str(e)]: [AppBaseException.__init__] passes [self.message] to
    [Exception.__init__]. *)
Definition str_exc (e : pyexc) : str :=
  match e with
  | App _ m => m
  | Other _ t => t
  end.

Definition base_message : str := lit "Alphas Error: ".

(** [AppBaseException.__init__(self, message=None)], run for an instance of
    class [cls]. *)
Definition AppBaseException_init (cls : exc_class) (message : option str)
  : pyexc :=
  match message with
  | Some m =>
    if truthy m then App cls (base_message ++ m)
    else App cls (base_message ++ lit "Ocurrió un error en la aplicación")
  | None => App cls (base_message ++ lit "Ocurrió un error en la aplicación")
  end.

(** The four subclasses share one constructor body:
    [alpha_message = f"Alphas Error: {message}"] and
    [super().__init__(alpha_message)]. *)
Definition subclass_init (cls : exc_class) (message : str) : pyexc :=
  let alpha_message := lit "Alphas Error: " ++ message in
  AppBaseException_init cls (Some alpha_message).

Definition UserNotFoundException_init : str -> pyexc :=
  subclass_init UserNotFoundException.
Definition DuplicateEmailException_init : str -> pyexc :=
  subclass_init DuplicateEmailException.
Definition InvalidAgeException_init : str -> pyexc :=
  subclass_init InvalidAgeException.
Definition InvalidUserNameException_init : str -> pyexc :=
  subclass_init InvalidUserNameException.

(** Default values of the [message] parameters. *)
Definition default_message (cls : exc_class) : str :=
  match cls with
  | AppBaseException => lit "Ocurrió un error en la aplicación"
  | UserNotFoundException => lit "Usuario no encontrado"
  | DuplicateEmailException => lit "El email ya existe en la base de datos"
  | InvalidAgeException => lit "La edad del usuario no es válida"
  | InvalidUserNameException =>
    lit "El nombre de usuario no puede estar vacío o solo contener espacios"
  end.

(** [isinstance(e, cls)]. *)
Definition isinstance (e : pyexc) (cls : exc_class) : bool :=
  match e with
  | App c _ =>
    match cls with
    | AppBaseException => true
    | _ => if exc_class_eq_dec c cls then true else false
    end
  | Other _ _ => false
  end.

(** [except (A, B, ...)]: does the clause catch [e]? *)
Definition catches (classes : list exc_class) (e : pyexc) : bool :=
  existsb (isinstance e) classes.

(** The classes the spec calls domain errors. *)
Definition is_domain_class (c : exc_class) : bool :=
  match c with
  | AppBaseException => false
  | _ => true
  end.

End Exc.
Export Exc.

(* ================================================================== *)
(** ** Domain model ([app/models/domain.py]) *)
(* ================================================================== *)

Module Domain.

Inductive UserStatus : Type := ACTIVE | INACTIVE.

Definition UserStatus_eq_dec : forall a b : UserStatus, {a = b} + {a <> b}.
Proof. decide equality. Defined.

(** [status.value]. *)
Definition value (s : UserStatus) : str :=
  match s with
  | ACTIVE => lit "active"
  | INACTIVE => lit "inactive"
  end.

(** [UserStatus(v)]: lookup of a member by value; [ValueError] on a miss. *)
Definition UserStatus_of_value (v : str) : pyexc + UserStatus :=
  if str_eqb v (lit "active") then inr ACTIVE
  else if str_eqb v (lit "inactive") then inr INACTIVE
  else inl (Other "ValueError"
              (lit "'" ++ v ++ lit "' is not a valid UserStatus")).

Record User : Type := mkUser {
  id : option Z;
  email : str;
  name : str;
  status : UserStatus;
  age : Z
}.

(** [user.status = new_status]. *)
Definition set_status (u : User) (s : UserStatus) : User :=
  mkUser (id u) (email u) (name u) s (age u).

(** [user.id = i]. *)
Definition set_id (u : User) (i : option Z) : User :=
  mkUser i (email u) (name u) (status u) (age u).

(** Values held in the dictionaries the program passes around. *)
Inductive pyval : Type :=
| VNone
| VInt (n : Z)
| VStr (s : str)
| VBool (b : bool)
| VStatus (s : UserStatus).

(** A [dict] with string keys, in insertion order. *)
Definition dict : Type := list (str * pyval).

(** [d.get(k)]: the value stored under [k], if any. *)
Fixpoint dict_get (k : str) (d : dict) : option pyval :=
  match d with
  | [] => None
  | (k', v) :: d' => if str_eqb k k' then Some v else dict_get k d'
  end.

(** [k in d]. *)
Definition dict_contains (k : str) (d : dict) : bool :=
  match dict_get k d with Some _ => true | None => false end.

(** The text an f-string inserts for a value. *)
Definition format_val (v : pyval) : str :=
  match v with
  | VNone => lit "None"
  | VInt n => str_of_int n
  | VStr s => s
  | VBool true => lit "True"
  | VBool false => lit "False"
  | VStatus ACTIVE => lit "UserStatus.ACTIVE"
  | VStatus INACTIVE => lit "UserStatus.INACTIVE"
  end.

(** [user.dict()]: the fields in declaration order. *)
Definition User_dict (u : User) : dict :=
  [ (lit "id", match id u with Some i => VInt i | None => VNone end);
    (lit "email", VStr (email u));
    (lit "name", VStr (name u));
    (lit "status", VStatus (status u));
    (lit "age", VInt (age u)) ].

End Domain.
Export Domain.

(* ================================================================== *)
(** ** Configuration ([app/core/config.py]) *)
(* ================================================================== *)

(** The [Settings] fields the specification refers to.  An environment
    variable of the same name overrides a default. *)
Record Settings : Type := mkSettings {
  DATABASE_URL : str;
  MIN_USER_AGE : Z
}.

Definition default_settings : Settings :=
  mkSettings (lit "sqlite:///:memory:") 18.

(* ================================================================== *)
(** ** Storage: the [users] table *)
(* ================================================================== *)

Module Storage.

(** A row of [users(id, email, name, status, age)], in column order.
    Values are stored as they are given: the engine does not enforce the
    declared lengths of the text columns. *)
Record row : Type := mkRow {
  row_id : Z;
  row_email : str;
  row_name : str;
  row_status : str;
  row_age : Z
}.

(** The table, in insertion order.  The engine is created in memory by
    [__init__] and starts empty. *)
Definition table : Type := list row.

Definition empty_table : table := [].

(** The key given to a new row of an integer primary key: 1 in an empty
    table, else one more than the largest key in use. *)
Definition next_id (t : table) : Z :=
  match t with
  | [] => 1
  | r :: t' => 1 + fold_right (fun r' m => Z.max (row_id r') m) (row_id r) t'
  end.

Definition has_email (e : str) (r : row) : bool := str_eqb (row_email r) e.
Definition has_id (i : Z) (r : row) : bool := row_id r =? i.

(** [SELECT count( * ) FROM users WHERE email = e]. *)
Definition count_where_email (e : str) (t : table) : Z :=
  Z.of_nat (List.length (filter (has_email e) t)).

(** [SELECT * FROM users WHERE id = i], then [fetchone()]. *)
Definition select_where_id (i : Z) (t : table) : option row :=
  find (has_id i) t.

(** [SELECT * FROM users WHERE email = e], then [fetchone()]. *)
Definition select_where_email (e : str) (t : table) : option row :=
  find (has_email e) t.

(** The engine stores integers in 64 bits, signed.  The driver refuses to
    bind a Python [int] outside that range to a statement, with
    [OverflowError]; the text is the one of the driver.  The errors of the
    engine are given by the first line of their text. *)
Definition min_int64 : Z := -9223372036854775808.
Definition max_int64 : Z := 9223372036854775807.

Definition fits_int64 (z : Z) : bool :=
  (min_int64 <=? z) && (z <=? max_int64).

Definition OverflowError : pyexc :=
  Other "OverflowError"
    (lit "Python int too large to convert to SQLite INTEGER").

Definition OperationalError : pyexc :=
  Other "OperationalError"
    (lit "(sqlite3.OperationalError) database or disk is full").

(** [INSERT INTO users (email, name, status, age)], then [commit()].  The
    values are bound first: an [age] outside 64 bits is refused with
    [OverflowError].  The column [email] is declared [unique=True]: a
    second row with a stored email is refused with [IntegrityError].  When
    the largest key in use is the largest 64-bit integer the engine looks
    for a free key and refuses the row when it finds none, as it does in
    the tables this program builds, where the keys 1, 2, ... are all in
    use (rows are never deleted).  A refused row writes nothing.  On
    success the new primary key is returned. *)
Definition insert (e n s : str) (a : Z) (t : table) : (pyexc + Z) * table :=
  if negb (fits_int64 a) then (inl OverflowError, t)
  else if existsb (has_email e) t then
    (inl (Other "IntegrityError"
            (lit "(sqlite3.IntegrityError) UNIQUE constraint failed: users.email")),
     t)
  else
    let i := next_id t in
    if negb (fits_int64 i) then (inl OperationalError, t)
    else (inr i, t ++ [mkRow i e n s a]).

End Storage.
Export Storage.

(* ================================================================== *)
(** ** Methods: state and exceptions *)
(* ================================================================== *)

(** A method running over a store of type [S]: it ends by raising an
    exception ([inl]) or returning a value ([inr]), and leaves a store. *)
Definition M (S A : Type) : Type := S -> (pyexc + A) * S.

Definition ret {S A} (a : A) : M S A := fun s => (inr a, s).

Definition raise {S A} (e : pyexc) : M S A := fun s => (inl e, s).

Definition bind {S A B} (m : M S A) (k : A -> M S B) : M S B :=
  fun s =>
    match m s with
    | (inl e, s') => (inl e, s')
    | (inr a, s') => k a s'
    end.

(** [try: m  except ... as e: h e]; a handler re-raises what no clause
    catches. *)
Definition try_except {S A} (m : M S A) (h : pyexc -> M S A) : M S A :=
  fun s =>
    match m s with
    | (inl e, s') => h e s'
    | (inr a, s') => (inr a, s')
    end.

(** A result computed without the store. *)
Definition lift {S A} (r : pyexc + A) : M S A := fun s => (r, s).

Declare Scope py_scope.
Delimit Scope py_scope with py.
Notation "x <- m ;; k" := (bind m (fun x => k))
  (at level 61, m at next level, right associativity) : py_scope.

(** The outcome and the final store of a call. *)
Definition outcome {S A} (r : (pyexc + A) * S) : pyexc + A := fst r.
Definition store_after {S A} (r : (pyexc + A) * S) : S := snd r.

(* ================================================================== *)
(** ** Field validation of the pydantic models *)
(* ================================================================== *)

(** What the program takes from the validation library: [EmailStr], which
    refuses a string or returns the address to store, and the text of the
    [ValidationError] raised for a model and its refused fields. *)
Class Pydantic : Type := {
  EmailStr : str -> option str;
  ValidationError_str : string -> list (string * pyval) -> str
}.

(** Validating a validated address returns it unchanged. *)
Definition EmailStr_stable (P : Pydantic) : Prop :=
  forall e e', EmailStr e = Some e' -> EmailStr e' = Some e'.

Module models.
Section Validation.
Context {P : Pydantic}.

(** [User(id=, email=, name=, status=, age=)]: of the typed arguments only
    [email] can be refused. *)
Definition User_init (i : option Z) (e n : str) (s : UserStatus) (a : Z)
  : pyexc + User :=
  match EmailStr e with
  | Some e' => inr (mkUser i e' n s a)
  | None =>
    inl (Other "ValidationError"
           (ValidationError_str "User" [("email"%string, VStr e)]))
  end.

End Validation.
End models.

(* ================================================================== *)
(** ** The repository interface ([app/models/base.py]) *)
(* ================================================================== *)

Module base.

(** [UserRepository]: the abstract methods [save], [find_by_id] and
    [get_user_by_email], and [email_exists], which [UserService] also calls
    on its repository.  The annotations of the two lookups say [Optional],
    but a miss is raised or reported inside the dictionary and a value is
    returned otherwise. *)
Class UserRepository (R : Type) : Type := {
  save : User -> M R User;
  find_by_id : Z -> M R User;
  get_user_by_email : str -> M R dict;
  email_exists : str -> M R bool
}.

End base.

(* ================================================================== *)
(** ** [SQLAlchemyUserRepository] ([app/repository/sql.py]) *)
(* ================================================================== *)

Module sql.
Section Repository.
Context {P : Pydantic}.

Local Open Scope py_scope.

Definition email_exists (email : str) : M table bool :=
  try_except
    (fun t =>
       let count := count_where_email email t in
       let exists_ := 0 <? count in
       (inr exists_, t))
    (fun e =>
       raise (UserNotFoundException_init
                (lit "Error al verificar email: " ++ str_exc e))).

Definition save (user : User) : M table User :=
  try_except
    (if age user <? 18 then
       raise (InvalidAgeException_init
                (lit "La edad debe ser mayor o igual a 18 años"))
     else if negb (truthy (name user)) || negb (truthy (strip (name user)))
     then
       raise (InvalidUserNameException_init
                (lit "El nombre no puede estar vacío o en blanco"))
     else
       dup <- email_exists (email user) ;;
       if dup : bool then
         raise (DuplicateEmailException_init
                  (lit "El email ya existe en la base de datos"))
       else
         pk <- insert (email user) (name user) (value (status user))
                 (age user) ;;
         ret (set_id user (Some pk)))
    (fun e =>
       if catches [InvalidAgeException; InvalidUserNameException;
                   DuplicateEmailException] e
       then raise e
       else raise (UserNotFoundException_init
                     (lit "Error al guardar usuario: " ++ str_exc e))).

(** The [User] rebuilt from a fetched row; the arguments are evaluated
    before the model validates them. *)
Definition user_of_row (r : row) : pyexc + User :=
  match UserStatus_of_value (row_status r) with
  | inl e => inl e
  | inr s =>
    models.User_init (Some (row_id r)) (row_email r) (row_name r) s (row_age r)
  end.

Definition find_by_id (user_id : Z) : M table User :=
  try_except
    (fun t =>
       if negb (fits_int64 user_id) then raise OverflowError t
       else
         match select_where_id user_id t with
         | Some user_data => lift (user_of_row user_data) t
         | None =>
           raise (UserNotFoundException_init
                    (lit "Usuario con ID '" ++ str_of_int user_id
                     ++ lit "' no encontrado")) t
         end)
    (fun e =>
       if catches [UserNotFoundException] e then raise e
       else raise (UserNotFoundException_init
                     (lit "Error al buscar usuario: " ++ str_exc e))).

Definition get_user_by_email (email : str) : M table dict :=
  try_except
    (fun t =>
       match select_where_email email t with
       | Some user_data =>
         (user <- lift (user_of_row user_data) ;; ret (User_dict user)) t
       | None =>
         raise (UserNotFoundException_init
                  (lit "Usuario con email '" ++ email ++ lit "' no existe")) t
       end)
    (fun e =>
       if catches [UserNotFoundException; DuplicateEmailException;
                   InvalidAgeException; InvalidUserNameException] e
       then ret [(lit "error", VStr (str_exc e))]
       else ret [(lit "error", VStr (lit "Error inesperado: " ++ str_exc e))]).

Definition SQLAlchemyUserRepository : base.UserRepository table :=
  {| base.save := save;
     base.find_by_id := find_by_id;
     base.get_user_by_email := get_user_by_email;
     base.email_exists := email_exists |}.

End Repository.
End sql.

(* ================================================================== *)
(** ** [UserService] ([app/services/userService.py]) *)
(* ================================================================== *)

Module userService.
Section Service.
Context {P : Pydantic}.
(** [self.user_repository]: any implementation of the interface. *)
Context {R : Type} {user_repository : base.UserRepository R}.

Local Open Scope py_scope.

(** [raise AppBaseException(f"...{str(e)}")] of the [except Exception]
    clauses. *)
Definition wrapped (prefix : string) (e : pyexc) : pyexc :=
  AppBaseException_init AppBaseException (Some (lit prefix ++ str_exc e)).

Definition create_user (email name : str) (age : Z) (status : UserStatus)
  : M R User :=
  try_except
    (new_user <- lift (models.User_init None email name status age) ;;
     saved_user <- base.save new_user ;;
     ret saved_user)
    (fun e =>
       if catches [InvalidAgeException; InvalidUserNameException;
                       DuplicateEmailException] e
       then raise e
       else raise (wrapped "Error al crear usuario: " e)).

Definition get_user_by_id (user_id : Z) : M R User :=
  try_except
    (user <- base.find_by_id user_id ;;
     ret user)
    (fun e =>
       if catches [UserNotFoundException] e then raise e
       else raise (wrapped "Error al buscar usuario: " e)).

Definition get_user_by_email (email : str) : M R dict :=
  try_except
    (user_dict <- base.get_user_by_email email ;;
     match dict_get (lit "error") user_dict with
     | Some err => raise (UserNotFoundException_init (format_val err))
     | None => ret user_dict
     end)
    (fun e =>
       if catches [UserNotFoundException] e then raise e
       else raise (wrapped "Error al buscar usuario: " e)).

Definition validate_user_age (age : Z) : pyexc + bool :=
  if age <? 18 then
    inl (InvalidAgeException_init
           (lit "La edad debe ser mayor o igual a 18 años"))
  else inr true.

Definition validate_user_name (name : str) : pyexc + bool :=
  if negb (truthy name) || negb (truthy (strip name)) then
    inl (InvalidUserNameException_init
           (lit "El nombre no puede estar vacío o solo contener espacios"))
  else inr true.

Definition email_exists (email : str) : M R bool :=
  try_except
    (exists_ <- base.email_exists email ;;
     ret exists_)
    (fun e => raise (wrapped "Error al verificar email: " e)).

Definition update_user_status (user_id : Z) (new_status : UserStatus)
  : M R User :=
  try_except
    (user <- get_user_by_id user_id ;;
     ret (set_status user new_status))
    (fun e =>
       if catches [UserNotFoundException] e then raise e
       else raise (wrapped "Error al actualizar usuario: " e)).

Definition get_user_info (user_id : Z) : M R dict :=
  try_except
    (user <- get_user_by_id user_id ;;
     ret [ (lit "id", match id user with Some i => VInt i | None => VNone end);
           (lit "email", VStr (email user));
           (lit "name", VStr (name user));
           (lit "age", VInt (age user));
           (lit "status", VStr (value (status user))) ])
    (fun e =>
       if catches [UserNotFoundException] e then raise e
       else raise (wrapped "Error al obtener información del usuario: " e)).

End Service.
End userService.

(* ================================================================== *)
(** ** Routes ([app/api/routes.py]) *)
(* ================================================================== *)

Module routes.

(** The fields of a validated request: [req_email] holds the address the
    [EmailStr] validation of [UserCreateRequest_init] returned. *)
Record UserCreateRequest : Type := mkUserCreateRequest {
  req_email : str;
  req_name : str;
  req_age : Z;
  req_status : UserStatus
}.

Record UserResponse : Type := mkUserResponse {
  resp_id : Z;
  resp_email : str;
  resp_name : str;
  resp_age : Z;
  resp_status : str
}.

Record EmailCheckResponse : Type := mkEmailCheckResponse {
  check_email : str;
  exists_ : bool;
  available : bool
}.

Section Routes.
Context {P : Pydantic}.
(** [_user_service]: the service [main.py] injects, over its repository. *)
Context {R : Type} {user_repository : base.UserRepository R}.

Local Open Scope py_scope.

(** [UserCreateRequest(email=, name=, age=, status=)]: the body of
    [POST /users] is validated into this model before the route function
    runs.  [email] is an [EmailStr]: a refused address raises
    [ValidationError] (the framework answers 422 and the route function is
    not called), an accepted one is held as the validator returned it. *)
Definition UserCreateRequest_init (e n : str) (a : Z) (s : UserStatus)
  : pyexc + UserCreateRequest :=
  match EmailStr e with
  | Some e' => inr (mkUserCreateRequest e' n a s)
  | None =>
    inl (Other "ValidationError"
           (ValidationError_str "UserCreateRequest"
              [("email"%string, VStr e)]))
  end.

(** [UserResponse(id=, email=, name=, age=, status=)]: [id] must be an
    integer and [email] an address. *)
Definition UserResponse_init (i : option Z) (e n : str) (a : Z) (s : str)
  : pyexc + UserResponse :=
  match i, EmailStr e with
  | Some i', Some e' => inr (mkUserResponse i' e' n a s)
  | _, _ =>
    inl (Other "ValidationError"
           (ValidationError_str "UserResponse"
              ((match i with
                | None => [("id"%string, VNone)]
                | Some _ => []
                end)
               ++ (match EmailStr e with
                   | None => [("email"%string, VStr e)]
                   | Some _ => []
                   end))))
  end.

Definition response_of_user (user : User) : pyexc + UserResponse :=
  UserResponse_init (id user) (email user) (name user) (age user)
    (value (status user)).

(** [POST /users]. *)
Definition create_user (user_data : UserCreateRequest) : M R UserResponse :=
  try_except
    (user <- userService.create_user (req_email user_data)
               (req_name user_data) (req_age user_data)
               (req_status user_data) ;;
     lift (response_of_user user))
    (fun e => raise e).

(** [GET /users/{user_id}]. *)
Definition get_user (user_id : Z) : M R UserResponse :=
  try_except
    (user <- userService.get_user_by_id user_id ;;
     lift (response_of_user user))
    (fun e => raise e).

(** [GET /users/check-email/{email}]. *)
Definition check_email_exists (email : str) : M R EmailCheckResponse :=
  try_except
    (exists_ <- userService.email_exists email ;;
     ret (mkEmailCheckResponse email exists_ (negb exists_)))
    (fun e => raise e).

End Routes.
End routes.

(* ================================================================== *)
(** ** Exception handlers and wiring ([app/main.py]) *)
(* ================================================================== *)

Module main.

Record JSONResponse : Type := mkJSONResponse {
  status_code : Z;
  content : dict
}.

Definition error_content (error detail : str) : dict :=
  [(lit "error", VStr error); (lit "detail", VStr detail)].

(** The five handlers; each reads [exc.message]. *)
Definition user_not_found_exception_handler (message : str) : JSONResponse :=
  mkJSONResponse 404 (error_content (lit "Usuario no encontrado") message).

Definition duplicate_email_exception_handler (message : str) : JSONResponse :=
  mkJSONResponse 409 (error_content (lit "Email duplicado") message).

Definition invalid_age_exception_handler (message : str) : JSONResponse :=
  mkJSONResponse 400 (error_content (lit "Edad inválida") message).

Definition invalid_username_exception_handler (message : str)
  : JSONResponse :=
  mkJSONResponse 400 (error_content (lit "Nombre de usuario inválido") message).

Definition app_base_exception_handler (message : str) : JSONResponse :=
  mkJSONResponse 500 (error_content (lit "Error en la aplicación") message).

(** [@app.exception_handler(cls)]: an exception is given to the handler
    registered for its own class.  No handler is registered for an
    exception of a library. *)
Definition exception_handler (exc : pyexc) : option JSONResponse :=
  match exc with
  | App UserNotFoundException message =>
    Some (user_not_found_exception_handler message)
  | App DuplicateEmailException message =>
    Some (duplicate_email_exception_handler message)
  | App InvalidAgeException message =>
    Some (invalid_age_exception_handler message)
  | App InvalidUserNameException message =>
    Some (invalid_username_exception_handler message)
  | App AppBaseException message =>
    Some (app_base_exception_handler message)
  | Other _ _ => None
  end.

Section Wiring.
Context {P : Pydantic}.

(** [user_repository = SQLAlchemyUserRepository()] and
    [user_service = UserService(user_repository)]. *)
#[local] Instance user_repository : base.UserRepository table :=
  sql.SQLAlchemyUserRepository.

Definition user_service_create_user := userService.create_user (R := table).
Definition user_service_get_user_by_id :=
  userService.get_user_by_id (R := table).
Definition user_service_get_user_by_email :=
  userService.get_user_by_email (R := table).
Definition user_service_email_exists := userService.email_exists (R := table).
Definition user_service_update_user_status :=
  userService.update_user_status (R := table).

Definition user_service_get_user_info :=
  userService.get_user_info (R := table).

Definition post_users := routes.create_user (R := table).
Definition get_users_id := routes.get_user (R := table).
Definition get_users_check_email := routes.check_email_exists (R := table).

(** A request [POST /users] with the body [{email, name, age, status}]:
    the parameter [user_data: UserCreateRequest] of the route function is
    built from the body before the function runs.  When the model refuses
    the body the function is not called; the exception is not one of the
    application and the framework answers it. *)
Definition request_post_users (e n : str) (a : Z) (s : UserStatus)
  : M table routes.UserResponse :=
  fun t =>
    match routes.UserCreateRequest_init e n a s with
    | inl exc => (inl exc, t)
    | inr user_data => post_users user_data t
    end.

End Wiring.
End main.

(* ================================================================== *)
(** ** Two validators to run the model on *)
(* ================================================================== *)

Module validators.

(** [s.partition(c)]: the text before and after the first [c]. *)
Fixpoint partition (c : N) (s : str) : option (str * str) :=
  match s with
  | [] => None
  | x :: r =>
    if (x =? c)%N then Some ([], r)
    else match partition c r with
         | Some (a, b) => Some (x :: a, b)
         | None => None
         end
  end.

(** ASCII lower case of one character. *)
Definition lower (c : N) : N :=
  if ((65 <=? c) && (c <=? 90))%N then (c + 32)%N else c.

Definition at_sign : N := 64%N.

(** An address needs a local part and a domain around its [@]. *)
Definition well_formed (e : str) : bool :=
  match partition at_sign e with
  | Some (l, d) => truthy l && truthy d
  | None => false
  end.

(** A validator that stores an accepted address as it was given. *)
Definition EmailStr_verbatim (e : str) : option str :=
  if well_formed e then Some e else None.

(** A validator that, like pydantic's [EmailStr], stores the normalised
    address: the domain in lower case. *)
Definition EmailStr_normalising (e : str) : option str :=
  match partition at_sign e with
  | Some (l, d) =>
    if truthy l && truthy d then Some (l ++ at_sign :: List.map lower d)
    else None
  | None => None
  end.

Definition error_text (model : string) (fields : list (string * pyval))
  : str :=
  lit "validation error for " ++ lit model.

Definition verbatim : Pydantic :=
  {| EmailStr := EmailStr_verbatim; ValidationError_str := error_text |}.

Definition normalising : Pydantic :=
  {| EmailStr := EmailStr_normalising; ValidationError_str := error_text |}.

End validators.

(* ================================================================== *)
(** ** Vocabulary of the properties *)
(* ================================================================== *)

(** The messages [save] raises. *)
Definition age_message : str :=
  lit "La edad debe ser mayor o igual a 18 años".
Definition name_message : str :=
  lit "El nombre no puede estar vacío o en blanco".
Definition duplicate_message : str :=
  lit "El email ya existe en la base de datos".

(** The message of a missed lookup by id. *)
Definition not_found_message (user_id : Z) : str :=
  lit "Usuario con ID '" ++ str_of_int user_id ++ lit "' no encontrado".

(** What [save] and [find_by_id] raise for an exception [e] of the
    storage. *)
Definition save_error (e : pyexc) : pyexc :=
  UserNotFoundException_init (lit "Error al guardar usuario: " ++ str_exc e).
Definition find_error (e : pyexc) : pyexc :=
  UserNotFoundException_init (lit "Error al buscar usuario: " ++ str_exc e).

(** The message of a missed lookup by email. *)
Definition no_such_email_message (e : str) : str :=
  lit "Usuario con email '" ++ e ++ lit "' no existe".

(** The row [save] writes for a user. *)
Definition new_row (u : User) (t : table) : row :=
  mkRow (next_id t) (email u) (name u) (value (status u)) (age u).

(** The classes [create_user] re-raises. *)
Definition validation_classes : list exc_class :=
  [InvalidAgeException; InvalidUserNameException; DuplicateEmailException].

(** A domain error's message starts with the prefix twice. *)
Definition doubled_prefix (exc : pyexc) : Prop :=
  forall c m,
    exc = App c m -> is_domain_class c = true ->
    startswith (base_message ++ base_message) m = true.

(** The keys 1, 2, ..., n. *)
Definition first_ids (n : nat) : list Z := List.map Z.of_nat (seq 1 n).

(** The dictionary [get_user_info] builds for a user. *)
Definition info_dict (u : User) : dict :=
  [ (lit "id", match id u with Some i => VInt i | None => VNone end);
    (lit "email", VStr (email u));
    (lit "name", VStr (name u));
    (lit "age", VInt (age u));
    (lit "status", VStr (value (status u))) ].

(** The user a stored row stands for. *)
Definition user_of (r : row) (s : UserStatus) : User :=
  mkUser (Some (row_id r)) (row_email r) (row_name r) s (row_age r).

(** An instance of [AppBaseException] or of one of its subclasses. *)
Definition is_application_error (e : pyexc) : Prop :=
  exists c m, e = App c m.

(** A repository whose storage is out of reach: each method raises the
    [UserNotFoundException] the SQL repository raises for an unexpected
    failure of that method. *)
Definition unreachable_repository : base.UserRepository unit :=
  {| base.save := fun _ =>
       raise (UserNotFoundException_init
                (lit "Error al guardar usuario: connection lost"));
     base.find_by_id := fun _ =>
       raise (UserNotFoundException_init
                (lit "Error al buscar usuario: connection lost"));
     base.get_user_by_email := fun _ =>
       ret [(lit "error", VStr (lit "Error inesperado: connection lost"))];
     base.email_exists := fun _ =>
       raise (UserNotFoundException_init
                (lit "Error al verificar email: connection lost")) |}.

Section Reachability.
Context {P : Pydantic}.

(** The states of the table: empty at start, then changed by [create_user]
    alone (lookups leave it as it is). *)
Inductive reachable : table -> Prop :=
| reachable_init : reachable empty_table
| reachable_create (t : table) (e n : str) (a : Z) (s : UserStatus) :
    reachable t ->
    reachable (snd (main.user_service_create_user e n a s t)).

(** What holds of every stored row. *)
Definition row_valid (r : row) : Prop :=
  18 <= row_age r
  /\ strip (row_name r) <> []
  /\ (exists s, row_status r = value s)
  /\ (exists e, EmailStr e = Some (row_email r)).

Definition table_inv (t : table) : Prop :=
  NoDup (List.map row_id t)
  /\ NoDup (List.map row_email t)
  /\ Forall row_valid t.

(** Every path by id ends in the exception [exc], answered with 404, and
    leaves the table as it is. *)
Definition lookups_raise (i : Z) (s : UserStatus) (t : table) (exc : pyexc)
  : Prop :=
  sql.find_by_id i t = (inl exc, t)
  /\ main.user_service_get_user_by_id i t = (inl exc, t)
  /\ main.get_users_id i t = (inl exc, t)
  /\ main.user_service_update_user_status i s t = (inl exc, t)
  /\ main.user_service_get_user_info i t = (inl exc, t)
  /\ option_map main.status_code (main.exception_handler exc) = Some 404.

End Reachability.

(** The scenario of the specification: Ann, and the row stored for her. *)
Module scenario.

Definition ann : User := mkUser (Some 1) (lit "a@b.com") (lit "Ann") ACTIVE 25.

Definition ann_row : row :=
  mkRow 1 (lit "a@b.com") (lit "Ann") (lit "active") 25.

End scenario.

(* ================================================================== *)
(** * Properties *)
(* ================================================================== *)

(** ** Strings *)

Example lit_ascii : lit "a@b" = [97; 64; 98]%N.
Proof. reflexivity. Qed.

Example lit_accent : lit "años" = [97; 241; 111; 115]%N.
Proof. reflexivity. Qed.

Example strip_example : strip (lit "  Ann ") = lit "Ann".
Proof. reflexivity. Qed.

Example strip_nbsp : strip [160; 32; 8195]%N = [].
Proof. reflexivity. Qed.

Example str_of_int_example : str_of_int 99999 = lit "99999".
Proof. reflexivity. Qed.

Example str_of_int_negative : str_of_int (-7) = lit "-7".
Proof. reflexivity. Qed.
Example str_of_int_zero : str_of_int 0 = lit "0".
Proof. reflexivity. Qed.

Lemma str_eqb_eq (a b : str) : str_eqb a b = true <-> a = b.
Proof.
  unfold str_eqb. destruct (str_eq_dec a b); split; congruence.
Qed.

Lemma str_eqb_refl (a : str) : str_eqb a a = true.
Proof. now apply str_eqb_eq. Qed.

Lemma str_eqb_neq (a b : str) : str_eqb a b = false <-> a <> b.
Proof.
  unfold str_eqb. destruct (str_eq_dec a b); split; congruence.
Qed.

Lemma truthy_false (s : str) : truthy s = false <-> s = [].
Proof. destruct s; simpl; split; congruence. Qed.

Lemma strip_nil : strip [] = [].
Proof. reflexivity. Qed.

(** The test [not name or not name.strip()] holds exactly for a name that
    is empty after trimming. *)
Lemma blank_name_iff (n : str) :
  negb (truthy n) || negb (truthy (strip n)) = true <-> strip n = [].
Proof.
  split.
  - intros H. apply orb_true_iff in H. destruct H as [H | H].
    + apply negb_true_iff, truthy_false in H. subst n. reflexivity.
    + now apply negb_true_iff, truthy_false in H.
  - intros H. apply orb_true_iff. right.
    apply negb_true_iff, truthy_false. exact H.
Qed.

Lemma nonblank_name_iff (n : str) :
  negb (truthy n) || negb (truthy (strip n)) = false <-> strip n <> [].
Proof.
  rewrite <- blank_name_iff.
  destruct (negb (truthy n) || negb (truthy (strip n))); split; congruence.
Qed.

Lemma startswith_app (p s : str) : startswith p (p ++ s) = true.
Proof.
  induction p as [| a p IH]; simpl; [reflexivity |].
  now rewrite N.eqb_refl, IH.
Qed.

(** ** The table *)

Lemma fold_max_ge_init (t : table) (z : Z) :
  z <= fold_right (fun r m => Z.max (row_id r) m) z t.
Proof. induction t as [| r t IH]; simpl; lia. Qed.

Lemma fold_max_ge_row (t : table) (z : Z) (r : row) :
  In r t -> row_id r <= fold_right (fun r' m => Z.max (row_id r') m) z t.
Proof.
  induction t as [| r' t IH]; simpl; [tauto |].
  intros [-> | H]; [lia | specialize (IH H); lia].
Qed.

(** A new key is larger than every key in use. *)
Lemma next_id_fresh (t : table) (r : row) : In r t -> row_id r < next_id t.
Proof.
  destruct t as [| r0 t]; [intros [] |].
  unfold next_id. intros [-> | H].
  - pose proof (fold_max_ge_init t (row_id r)). lia.
  - pose proof (fold_max_ge_row t (row_id r0) r H). lia.
Qed.

Lemma select_where_id_fresh (t : table) (r : row) :
  row_id r = next_id t -> select_where_id (row_id r) (t ++ [r]) = Some r.
Proof.
  intros Hid. unfold select_where_id.
  assert (Hold : forall r', In r' t -> has_id (row_id r) r' = false).
  { intros r' Hin. unfold has_id. apply Z.eqb_neq.
    pose proof (next_id_fresh t r' Hin). lia. }
  clear Hid. induction t as [| r0 t IH]; simpl.
  - unfold has_id. now rewrite Z.eqb_refl.
  - rewrite (Hold r0 (or_introl eq_refl)).
    apply IH. intros r' Hin. apply Hold. now right.
Qed.

(** [count( * ) > 0] holds exactly when some row carries the email. *)
Lemma count_positive (e : str) (t : table) :
  (0 <? count_where_email e t) = existsb (has_email e) t.
Proof.
  unfold count_where_email.
  induction t as [| r t IH]; simpl; [reflexivity |].
  destruct (has_email e r); simpl.
  - apply Z.ltb_lt. lia.
  - exact IH.
Qed.

Lemma existsb_has_email (e : str) (t : table) :
  existsb (has_email e) t = true <-> In e (List.map row_email t).
Proof.
  rewrite existsb_exists, in_map_iff. unfold has_email.
  split; intros [r [H1 H2]]; exists r.
  - apply str_eqb_eq in H2. tauto.
  - split; [tauto | apply str_eqb_eq; tauto].
Qed.

Lemma count_le_one (e : str) (t : table) :
  NoDup (List.map row_email t) -> count_where_email e t <= 1.
Proof.
  unfold count_where_email. intros Hnd.
  induction t as [| r t IH]; simpl; [lia |].
  simpl in Hnd. inversion Hnd as [| x l Hnotin Hnd' ]; subst.
  specialize (IH Hnd').
  destruct (has_email e r) eqn:He; simpl; [| exact IH].
  apply str_eqb_eq in He. rewrite He in Hnotin.
  assert (Hz : filter (has_email e) t = []).
  { destruct (filter (has_email e) t) as [| r' l] eqn:Hf; [reflexivity |].
    exfalso. apply Hnotin.
    assert (Hin : In r' (filter (has_email e) t)) by (rewrite Hf; now left).
    apply filter_In in Hin. destruct Hin as [Hin Hr'].
    apply str_eqb_eq in Hr'. rewrite <- Hr'. now apply in_map. }
  rewrite Hz. simpl. lia.
Qed.

Lemma select_where_id_in (i : Z) (t : table) (r : row) :
  NoDup (List.map row_id t) -> In r t -> row_id r = i ->
  select_where_id i t = Some r.
Proof.
  unfold select_where_id. intros Hnd Hin Hi. subst i.
  induction t as [| r0 t IH]; simpl in *; [tauto |].
  inversion Hnd as [| x l Hnotin Hnd']; subst.
  destruct Hin as [-> | Hin].
  - unfold has_id. now rewrite Z.eqb_refl.
  - destruct (has_id (row_id r) r0) eqn:Hh.
    + exfalso. apply Hnotin. unfold has_id in Hh. apply Z.eqb_eq in Hh.
      rewrite Hh. now apply in_map.
    + now apply IH.
Qed.

(** ** Exceptions *)

(** A subclass constructor prepends the prefix and the base constructor
    prepends it again. *)
Lemma subclass_init_eq (c : exc_class) (m : str) :
  subclass_init c m = App c (base_message ++ base_message ++ m).
Proof. reflexivity. Qed.

Lemma wrapped_class (prefix : string) (e : pyexc) :
  exists m, userService.wrapped prefix e = App AppBaseException m.
Proof.
  unfold userService.wrapped, AppBaseException_init.
  destruct (truthy (lit prefix ++ str_exc e)); eauto.
Qed.


(** ** The repository *)

Section RepositoryFacts.
Context {P : Pydantic}.

Lemma email_exists_eq (e : str) (t : table) :
  sql.email_exists e t = (inr (existsb (has_email e) t), t).
Proof.
  unfold sql.email_exists, try_except. now rewrite count_positive.
Qed.


(** [save] by cases, in the order of its checks. *)
Lemma save_eq (u : User) (t : table) :
  sql.save u t =
  if age u <? 18 then (inl (InvalidAgeException_init age_message), t)
  else if negb (truthy (name u)) || negb (truthy (strip (name u))) then
    (inl (InvalidUserNameException_init name_message), t)
  else if existsb (has_email (email u)) t then
    (inl (DuplicateEmailException_init duplicate_message), t)
  else if negb (fits_int64 (age u)) then (inl (save_error OverflowError), t)
  else if negb (fits_int64 (next_id t)) then
    (inl (save_error OperationalError), t)
  else (inr (set_id u (Some (next_id t))), t ++ [new_row u t]).
Proof.
  unfold sql.save, try_except.
  destruct (age u <? 18); [reflexivity |].
  destruct (negb (truthy (name u)) || negb (truthy (strip (name u))));
    [reflexivity |].
  unfold bind. rewrite email_exists_eq.
  destruct (existsb (has_email (email u)) t) eqn:Hdup; [reflexivity |].
  unfold insert. rewrite Hdup.
  destruct (negb (fits_int64 (age u))); [reflexivity |].
  destruct (negb (fits_int64 (next_id t))); reflexivity.
Qed.

(** [save] raises its three validation errors, or the
    [UserNotFoundException] of its last clause when the row cannot be
    written; the unique index never refuses a row, because the email was
    looked up first.  A failed [save] writes nothing. *)
Lemma save_raises (u : User) (t t' : table) (e : pyexc) :
  sql.save u t = (inl e, t') ->
  t' = t /\
  (e = InvalidAgeException_init age_message
   \/ e = InvalidUserNameException_init name_message
   \/ e = DuplicateEmailException_init duplicate_message
   \/ e = save_error OverflowError
   \/ e = save_error OperationalError).
Proof.
  rewrite save_eq.
  destruct (age u <? 18);
    [intros [= <- <-]; split; [| left]; reflexivity |].
  destruct (negb (truthy (name u)) || negb (truthy (strip (name u))));
    [intros [= <- <-]; split; [| right; left]; reflexivity |].
  destruct (existsb (has_email (email u)) t);
    [intros [= <- <-]; split; [| right; right; left]; reflexivity |].
  destruct (negb (fits_int64 (age u)));
    [intros [= <- <-]; split; [| right; right; right; left]; reflexivity |].
  destruct (negb (fits_int64 (next_id t)));
    [intros [= <- <-]; split; [| right; right; right; right]; reflexivity |].
  discriminate.
Qed.

(** The two classes of what [save] raises. *)
Lemma save_raises_class (u : User) (t t' : table) (e : pyexc) :
  sql.save u t = (inl e, t') ->
  t' = t /\
  (catches validation_classes e = true
   \/ (catches validation_classes e = false
       /\ exists x, e = save_error x)).
Proof.
  intros H. apply save_raises in H. destruct H as [-> H].
  split; [reflexivity |].
  destruct H as [-> | [-> | [-> | [-> | ->]]]];
    [left | left | left | right | right];
    try reflexivity; (split; [reflexivity | eexists; reflexivity]).
Qed.

Lemma save_age_invalid (u : User) (t : table) :
  age u < 18 -> sql.save u t = (inl (InvalidAgeException_init age_message), t).
Proof.
  intros H. rewrite save_eq. apply Z.ltb_lt in H. now rewrite H.
Qed.

Lemma save_name_invalid (u : User) (t : table) :
  18 <= age u -> strip (name u) = [] ->
  sql.save u t = (inl (InvalidUserNameException_init name_message), t).
Proof.
  intros Ha Hn. rewrite save_eq.
  apply Z.ltb_ge in Ha. rewrite Ha.
  apply blank_name_iff in Hn. now rewrite Hn.
Qed.

Lemma save_duplicate (u : User) (t : table) :
  18 <= age u -> strip (name u) <> [] ->
  existsb (has_email (email u)) t = true ->
  sql.save u t = (inl (DuplicateEmailException_init duplicate_message), t).
Proof.
  intros Ha Hn He. rewrite save_eq.
  apply Z.ltb_ge in Ha. rewrite Ha.
  apply nonblank_name_iff in Hn. now rewrite Hn, He.
Qed.


(** A row that passes the checks and cannot be written. *)
Lemma save_overflow (u : User) (t : table) :
  18 <= age u -> strip (name u) <> [] ->
  existsb (has_email (email u)) t = false ->
  fits_int64 (age u) = false ->
  sql.save u t = (inl (save_error OverflowError), t).
Proof.
  intros Ha Hn He Hfa. rewrite save_eq.
  apply Z.ltb_ge in Ha. rewrite Ha.
  apply nonblank_name_iff in Hn. now rewrite Hn, He, Hfa.
Qed.

(** What a successful [save] tells about its input and its result. *)
Lemma save_returns (u u' : User) (t t' : table) :
  sql.save u t = (inr u', t') ->
  18 <= age u /\ strip (name u) <> []
  /\ existsb (has_email (email u)) t = false
  /\ u' = set_id u (Some (next_id t)) /\ t' = t ++ [new_row u t].
Proof.
  rewrite save_eq.
  destruct (age u <? 18) eqn:Ha; [discriminate |].
  destruct (negb (truthy (name u)) || negb (truthy (strip (name u)))) eqn:Hn;
    [discriminate |].
  destruct (existsb (has_email (email u)) t) eqn:He; [discriminate |].
  destruct (negb (fits_int64 (age u))); [discriminate |].
  destruct (negb (fits_int64 (next_id t))); [discriminate |].
  intros [= <- <-].
  apply Z.ltb_ge in Ha. apply nonblank_name_iff in Hn. tauto.
Qed.

(** What is written fits in 64 bits. *)
Lemma save_returns_fits (u u' : User) (t t' : table) :
  sql.save u t = (inr u', t') ->
  fits_int64 (age u) = true /\ fits_int64 (next_id t) = true.
Proof.
  rewrite save_eq.
  destruct (age u <? 18); [discriminate |].
  destruct (negb (truthy (name u)) || negb (truthy (strip (name u))));
    [discriminate |].
  destruct (existsb (has_email (email u)) t); [discriminate |].
  destruct (fits_int64 (age u)); [| discriminate].
  destruct (fits_int64 (next_id t)); [| discriminate].
  now split.
Qed.

Lemma UserStatus_roundtrip (s : UserStatus) :
  UserStatus_of_value (value s) = inr s.
Proof. destruct s; reflexivity. Qed.

(** A row whose email the validator returns unchanged and whose status is
    a member's value is rebuilt into a user with the row's fields. *)
Lemma user_of_row_ok (r : row) (s : UserStatus) :
  EmailStr (row_email r) = Some (row_email r) ->
  row_status r = value s ->
  sql.user_of_row r
  = inr (mkUser (Some (row_id r)) (row_email r) (row_name r) s (row_age r)).
Proof.
  intros He Hs. unfold sql.user_of_row, models.User_init.
  now rewrite Hs, UserStatus_roundtrip, He.
Qed.

Lemma find_by_id_found (i : Z) (t : table) (r : row) (u : User) :
  fits_int64 i = true ->
  select_where_id i t = Some r -> sql.user_of_row r = inr u ->
  sql.find_by_id i t = (inr u, t).
Proof.
  intros Hi Hsel Hu. unfold sql.find_by_id, try_except, lift.
  now rewrite Hi, Hsel, Hu.
Qed.

Lemma find_by_id_missing (i : Z) (t : table) :
  fits_int64 i = true ->
  select_where_id i t = None ->
  sql.find_by_id i t
  = (inl (UserNotFoundException_init (not_found_message i)), t).
Proof.
  intros Hi Hsel. unfold sql.find_by_id, try_except. now rewrite Hi, Hsel.
Qed.

(** An id the driver cannot bind. *)
Lemma find_by_id_overflow (i : Z) (t : table) :
  fits_int64 i = false ->
  sql.find_by_id i t = (inl (find_error OverflowError), t).
Proof.
  intros Hi. unfold sql.find_by_id, try_except. now rewrite Hi.
Qed.

(** [find_by_id] leaves the table alone and raises nothing but
    [UserNotFoundException]. *)
Lemma find_by_id_raises (i : Z) (t t' : table) (e : pyexc) :
  sql.find_by_id i t = (inl e, t') ->
  t' = t /\ exists m, e = UserNotFoundException_init m.
Proof.
  destruct (fits_int64 i) eqn:Hi;
    [| rewrite (find_by_id_overflow i t Hi); intros [= <- <-];
       split; [reflexivity | eexists; reflexivity]].
  unfold sql.find_by_id, try_except, lift. rewrite Hi. simpl negb. cbv iota.
  destruct (select_where_id i t) as [r |].
  - destruct (sql.user_of_row r) as [e0 |] eqn:Hr; [| discriminate].
    destruct (catches [UserNotFoundException] e0) eqn:Hc.
    + (* the row could not be rebuilt: a library exception, never caught *)
      exfalso. unfold sql.user_of_row, models.User_init in Hr.
      destruct (UserStatus_of_value (row_status r)) as [e1 | s] eqn:Hs.
      * injection Hr as <-. unfold UserStatus_of_value in Hs.
        destruct (str_eqb _ _); [discriminate |].
        destruct (str_eqb _ _); [discriminate |].
        injection Hs as <-. discriminate.
      * destruct (EmailStr (row_email r)); [discriminate |].
        injection Hr as <-. discriminate.
    + intros [= <- <-]. eauto.
  - intros [= <- <-]. eauto.
Qed.

Lemma find_by_id_state (i : Z) (t : table) : snd (sql.find_by_id i t) = t.
Proof.
  destruct (sql.find_by_id i t) as [[e | u] t'] eqn:H.
  - apply find_by_id_raises in H. simpl. tauto.
  - unfold sql.find_by_id, try_except, lift in H.
    destruct (negb (fits_int64 i)); [discriminate |].
    destruct (select_where_id i t) as [r |].
    + destruct (sql.user_of_row r).
      * destruct (catches _ _); discriminate.
      * now injection H as _ <-.
    + discriminate.
Qed.

(** A user is returned for an id that fits only. *)
Lemma find_by_id_returns_fits (i : Z) (t t' : table) (u : User) :
  sql.find_by_id i t = (inr u, t') -> fits_int64 i = true.
Proof.
  destruct (fits_int64 i) eqn:Hi; [reflexivity |].
  rewrite (find_by_id_overflow i t Hi). discriminate.
Qed.

End RepositoryFacts.

(** ** The service, over any repository *)

Section ServiceFacts.
Context {P : Pydantic} {R : Type} {repo : base.UserRepository R}.


(** [create_user] hands on a validation error of [save] as it is. *)
Lemma create_user_propagates
      (e n : str) (a : Z) (s : UserStatus) (u : User) (st st' : R)
      (exc : pyexc) :
  models.User_init None e n s a = inr u ->
  base.save u st = (inl exc, st') ->
  catches validation_classes exc = true ->
  userService.create_user e n a s st = (inl exc, st').
Proof.
  intros Hu Hsave Hc.
  unfold userService.create_user, try_except, bind, lift.
  rewrite Hu, Hsave. fold validation_classes. rewrite Hc. reflexivity.
Qed.

Lemma create_user_returns
      (e n : str) (a : Z) (s : UserStatus) (u u' : User) (st st' : R) :
  models.User_init None e n s a = inr u ->
  base.save u st = (inr u', st') ->
  userService.create_user e n a s st = (inr u', st').
Proof.
  intros Hu Hsave.
  unfold userService.create_user, try_except, bind, lift.
  now rewrite Hu, Hsave.
Qed.

(** A refused address never reaches the repository. *)
Lemma create_user_refused
      (e n : str) (a : Z) (s : UserStatus) (st : R) :
  EmailStr e = None ->
  userService.create_user e n a s st
  = (inl (userService.wrapped "Error al crear usuario: "
            (Other "ValidationError"
               (ValidationError_str "User" [("email"%string, VStr e)]))),
     st).
Proof.
  intros He.
  unfold userService.create_user, try_except, bind, lift, models.User_init.
  rewrite He. reflexivity.
Qed.

Lemma get_user_by_id_propagates (i : Z) (st st' : R) (m : str) :
  base.find_by_id i st = (inl (UserNotFoundException_init m), st') ->
  userService.get_user_by_id i st = (inl (UserNotFoundException_init m), st').
Proof.
  intros H. unfold userService.get_user_by_id, try_except, bind.
  rewrite H. reflexivity.
Qed.

Lemma get_user_by_id_returns (i : Z) (st st' : R) (u : User) :
  base.find_by_id i st = (inr u, st') ->
  userService.get_user_by_id i st = (inr u, st').
Proof.
  intros H. unfold userService.get_user_by_id, try_except, bind.
  now rewrite H.
Qed.

Lemma update_user_status_returns
      (i : Z) (s : UserStatus) (st st' : R) (u : User) :
  base.find_by_id i st = (inr u, st') ->
  userService.update_user_status i s st = (inr (set_status u s), st').
Proof.
  intros H. unfold userService.update_user_status, try_except, bind.
  now rewrite (get_user_by_id_returns _ _ _ _ H).
Qed.

Lemma update_user_status_propagates (i : Z) (s : UserStatus) (st st' : R)
      (m : str) :
  base.find_by_id i st = (inl (UserNotFoundException_init m), st') ->
  userService.update_user_status i s st
  = (inl (UserNotFoundException_init m), st').
Proof.
  intros H. unfold userService.update_user_status, try_except, bind.
  rewrite (get_user_by_id_propagates _ _ _ _ H). reflexivity.
Qed.

(** The sentinel dictionary becomes a raised [UserNotFoundException]. *)
Lemma get_user_by_email_sentinel
      (e : str) (st st' : R) (d : dict) (err : pyval) :
  base.get_user_by_email e st = (inr d, st') ->
  dict_get (lit "error") d = Some err ->
  userService.get_user_by_email e st
  = (inl (UserNotFoundException_init (format_val err)), st').
Proof.
  intros H Hd. unfold userService.get_user_by_email, try_except, bind.
  rewrite H, Hd. reflexivity.
Qed.

Lemma get_user_by_email_returns (e : str) (st st' : R) (d : dict) :
  base.get_user_by_email e st = (inr d, st') ->
  dict_contains (lit "error") d = false ->
  userService.get_user_by_email e st = (inr d, st').
Proof.
  intros H Hd. unfold userService.get_user_by_email, try_except, bind.
  rewrite H. unfold dict_contains in Hd.
  destruct (dict_get (lit "error") d); [discriminate | reflexivity].
Qed.

(** The standalone validators accept what [save] accepts. *)
Lemma validate_user_age_ok (a : Z) :
  userService.validate_user_age a = inr true <-> 18 <= a.
Proof.
  unfold userService.validate_user_age.
  destruct (a <? 18) eqn:H.
  - apply Z.ltb_lt in H. split; [discriminate | lia].
  - apply Z.ltb_ge in H. split; [intros _; exact H | reflexivity].
Qed.

Lemma validate_user_name_ok (n : str) :
  userService.validate_user_name n = inr true <-> strip n <> [].
Proof.
  unfold userService.validate_user_name. rewrite <- nonblank_name_iff.
  destruct (negb (truthy n) || negb (truthy (strip n)));
    split; try discriminate; reflexivity.
Qed.

End ServiceFacts.

(** ** The wired application *)

Section ApplicationFacts.
Context {P : Pydantic}.

(** [create_user] over the SQL repository: validation of the address,
    then [save], whose validation errors pass and whose other errors are
    wrapped. *)
Lemma create_user_eq (e n : str) (a : Z) (s : UserStatus) (t : table) :
  main.user_service_create_user e n a s t =
  match EmailStr e with
  | Some e' =>
    match sql.save (mkUser None e' n s a) t with
    | (inl exc, t') =>
      (inl (if catches validation_classes exc then exc
            else userService.wrapped "Error al crear usuario: " exc), t')
    | (inr u, t') => (inr u, t')
    end
  | None =>
    (inl (userService.wrapped "Error al crear usuario: "
            (Other "ValidationError"
               (ValidationError_str "User" [("email"%string, VStr e)]))),
     t)
  end.
Proof.
  unfold main.user_service_create_user.
  destruct (EmailStr e) as [e' |] eqn:He.
  - assert (Hu : models.User_init None e n s a = inr (mkUser None e' n s a))
      by (unfold models.User_init; now rewrite He).
    destruct (sql.save (mkUser None e' n s a) t) as [[exc | u'] t'] eqn:Hs.
    + destruct (catches validation_classes exc) eqn:Hc.
      * apply (create_user_propagates (repo := main.user_repository)
                 _ _ _ _ _ _ _ _ Hu Hs Hc).
      * unfold userService.create_user, try_except, bind, lift.
        rewrite Hu.
        change (base.save (mkUser None e' n s a) t)
          with (sql.save (mkUser None e' n s a) t).
        rewrite Hs. fold validation_classes. now rewrite Hc.
    + apply (create_user_returns (repo := main.user_repository)
               _ _ _ _ _ _ _ _ Hu Hs).
  - now apply create_user_refused.
Qed.

(** The three ways [save] ends, seen through [create_user]. *)
Lemma create_user_of_validation
      (e e' n : str) (a : Z) (s : UserStatus) (t t' : table) (exc : pyexc) :
  EmailStr e = Some e' ->
  sql.save (mkUser None e' n s a) t = (inl exc, t') ->
  catches validation_classes exc = true ->
  main.user_service_create_user e n a s t = (inl exc, t').
Proof.
  intros He Hs Hc. now rewrite create_user_eq, He, Hs, Hc.
Qed.

Lemma create_user_of_other
      (e e' n : str) (a : Z) (s : UserStatus) (t t' : table) (exc : pyexc) :
  EmailStr e = Some e' ->
  sql.save (mkUser None e' n s a) t = (inl exc, t') ->
  catches validation_classes exc = false ->
  main.user_service_create_user e n a s t
  = (inl (userService.wrapped "Error al crear usuario: " exc), t').
Proof.
  intros He Hs Hc. now rewrite create_user_eq, He, Hs, Hc.
Qed.


Lemma create_user_age_invalid
      (e e' n : str) (a : Z) (s : UserStatus) (t : table) :
  EmailStr e = Some e' -> a < 18 ->
  main.user_service_create_user e n a s t
  = (inl (InvalidAgeException_init age_message), t).
Proof.
  intros He Ha. apply (create_user_of_validation e e'); [exact He | |].
  - now apply save_age_invalid.
  - reflexivity.
Qed.

Lemma create_user_duplicate
      (e e' n : str) (a : Z) (s : UserStatus) (t : table) :
  EmailStr e = Some e' -> 18 <= a -> strip n <> [] ->
  existsb (has_email e') t = true ->
  main.user_service_create_user e n a s t
  = (inl (DuplicateEmailException_init duplicate_message), t).
Proof.
  intros He Ha Hn Hx. apply (create_user_of_validation e e'); [exact He | |].
  - now apply save_duplicate.
  - reflexivity.
Qed.

(** What a successful [create_user] tells. *)
Lemma create_user_success
      (e n : str) (a : Z) (s : UserStatus) (t t' : table) (u : User) :
  main.user_service_create_user e n a s t = (inr u, t') ->
  exists e',
    EmailStr e = Some e' /\ 18 <= a /\ strip n <> []
    /\ existsb (has_email e') t = false
    /\ u = mkUser (Some (next_id t)) e' n s a
    /\ t' = t ++ [mkRow (next_id t) e' n (value s) a].
Proof.
  rewrite create_user_eq.
  destruct (EmailStr e) as [e' |]; [| discriminate].
  destruct (sql.save (mkUser None e' n s a) t) as [[exc | u'] t1] eqn:Hs;
    [discriminate |].
  intros [= <- <-]. apply save_returns in Hs. simpl in Hs.
  destruct Hs as (Ha & Hn & He & -> & ->).
  exists e'. repeat split; assumption.
Qed.

(** What a successful [create_user] wrote fits in 64 bits. *)
Lemma create_user_success_fits
      (e n : str) (a : Z) (s : UserStatus) (t t' : table) (u : User) :
  main.user_service_create_user e n a s t = (inr u, t') ->
  fits_int64 a = true /\ fits_int64 (next_id t) = true.
Proof.
  rewrite create_user_eq.
  destruct (EmailStr e) as [e' |]; [| discriminate].
  destruct (sql.save (mkUser None e' n s a) t) as [[exc | u'] t1] eqn:Hs;
    [discriminate |].
  intros _. now apply save_returns_fits in Hs.
Qed.

(** A failed [create_user] writes nothing. *)
Lemma create_user_failure
      (e n : str) (a : Z) (s : UserStatus) (t t' : table) (exc : pyexc) :
  main.user_service_create_user e n a s t = (inl exc, t') -> t' = t.
Proof.
  rewrite create_user_eq.
  destruct (EmailStr e) as [e' |].
  - destruct (sql.save (mkUser None e' n s a) t) as [[exc0 | u'] t1] eqn:Hs;
      [| discriminate].
    intros [= _ <-]. now apply save_raises in Hs.
  - now intros [= _ <-].
Qed.

Lemma NoDup_snoc {A} (l : list A) (x : A) :
  NoDup l -> ~ In x l -> NoDup (l ++ [x]).
Proof.
  intros Hl Hx. induction l as [| y l IH]; simpl.
  - constructor; [tauto | constructor].
  - inversion Hl as [| z l' Hy Hl']; subst. constructor.
    + rewrite in_app_iff. simpl. intros [H | [H | []]]; [tauto |].
      subst. apply Hx. now left.
    + apply IH; [assumption |]. intros H. apply Hx. now right.
Qed.

Lemma table_inv_create
      (e n : str) (a : Z) (s : UserStatus) (t : table) :
  table_inv t -> table_inv (snd (main.user_service_create_user e n a s t)).
Proof.
  intros Hinv.
  destruct (main.user_service_create_user e n a s t) as [[exc | u] t'] eqn:H.
  - apply create_user_failure in H. simpl. now subst.
  - apply create_user_success in H.
    destruct H as (e' & He & Ha & Hn & Hdup & _ & ->). simpl.
    destruct Hinv as (Hid & Hem & Hall).
    unfold table_inv. rewrite !map_app. simpl. repeat split.
    + apply NoDup_snoc; [assumption |].
      intros Hin. apply in_map_iff in Hin. destruct Hin as [r [Hr Hin]].
      pose proof (next_id_fresh t r Hin). lia.
    + apply NoDup_snoc; [assumption |].
      intros Hin. apply existsb_has_email in Hin. congruence.
    + apply Forall_app. split; [assumption |].
      constructor; [| constructor].
      unfold row_valid; simpl. repeat split; eauto.
Qed.

Lemma reachable_inv (t : table) : reachable t -> table_inv t.
Proof.
  induction 1 as [| t e n a s _ IH].
  - repeat split; simpl; constructor.
  - now apply table_inv_create.
Qed.

(** The keys and ages of a reachable table fit in 64 bits. *)
Lemma reachable_fits (t : table) :
  reachable t ->
  Forall (fun r => fits_int64 (row_id r) = true
                   /\ fits_int64 (row_age r) = true) t.
Proof.
  induction 1 as [| t e n a s _ IH]; [constructor |].
  destruct (main.user_service_create_user e n a s t) as [[exc | u] t'] eqn:H.
  - apply create_user_failure in H. simpl. now subst.
  - destruct (create_user_success_fits _ _ _ _ _ _ _ H) as [Hfa Hfk].
    apply create_user_success in H.
    destruct H as (e' & _ & _ & _ & _ & _ & ->). simpl.
    apply Forall_app. split; [exact IH |].
    constructor; [| constructor]. simpl. now split.
Qed.

(** Under a stable validator every stored row is rebuilt by a lookup. *)
Lemma stored_row_rebuilt (t : table) (r : row) :
  EmailStr_stable P -> reachable t -> In r t ->
  exists s,
    row_status r = value s
    /\ sql.find_by_id (row_id r) t
       = (inr (mkUser (Some (row_id r)) (row_email r) (row_name r) s
                 (row_age r)), t).
Proof.
  intros Hst Hr Hin.
  pose proof (reachable_fits t Hr) as Hfit.
  destruct (reachable_inv t Hr) as (Hid & _ & Hall).
  rewrite Forall_forall in Hall, Hfit.
  destruct (Hall r Hin) as (_ & _ & [s Hs] & [e He]).
  exists s. split; [assumption |].
  apply find_by_id_found with (r := r).
  - apply (Hfit r Hin).
  - now apply select_where_id_in.
  - apply user_of_row_ok; [| assumption]. now apply (Hst e).
Qed.

(** After a successful [create_user] the returned user is found under its
    id. *)
Lemma created_user_found
      (e n : str) (a : Z) (s : UserStatus) (t t' : table) (u : User) :
  EmailStr_stable P ->
  main.user_service_create_user e n a s t = (inr u, t') ->
  id u = Some (next_id t) /\ sql.find_by_id (next_id t) t' = (inr u, t').
Proof.
  intros Hst H.
  destruct (create_user_success_fits _ _ _ _ _ _ _ H) as [_ Hfk].
  apply create_user_success in H.
  destruct H as (e' & He & Ha & Hn & Hdup & -> & ->).
  split; [reflexivity |].
  set (r := mkRow (next_id t) e' n (value s) a).
  apply find_by_id_found with (r := r).
  - exact Hfk.
  - apply (select_where_id_fresh t r). reflexivity.
  - apply (user_of_row_ok r s); [| reflexivity].
    simpl. now apply (Hst e).
Qed.

End ApplicationFacts.

(** ** The example validators *)

Lemma verbatim_stable : EmailStr_stable validators.verbatim.
Proof.
  intros e e'. simpl. unfold validators.EmailStr_verbatim.
  destruct (validators.well_formed e) eqn:Hwf; [| discriminate].
  intros [= <-]. now rewrite Hwf.
Qed.

Lemma partition_app (c : N) (l d : str) :
  validators.partition c l = None ->
  validators.partition c (l ++ c :: d) = Some (l, d).
Proof.
  induction l as [| x l IH]; simpl.
  - now rewrite N.eqb_refl.
  - destruct (x =? c)%N; [discriminate |].
    destruct (validators.partition c l) as [[a b] |]; [discriminate |].
    intros _. now rewrite IH.
Qed.

Lemma partition_local (c : N) (s l d : str) :
  validators.partition c s = Some (l, d) ->
  validators.partition c l = None /\ s = l ++ c :: d.
Proof.
  revert l. induction s as [| x s IH]; simpl; [discriminate |].
  intros l. destruct (x =? c)%N eqn:Hx.
  - intros [= <- <-]. apply N.eqb_eq in Hx. subst. now split.
  - destruct (validators.partition c s) as [[a b] |]; [| discriminate].
    intros [= <- <-]. destruct (IH a eq_refl) as [H1 H2].
    simpl. rewrite Hx, H1. split; [reflexivity | now rewrite H2].
Qed.

Lemma lower_lower (c : N) : validators.lower (validators.lower c) = validators.lower c.
Proof.
  unfold validators.lower.
  destruct ((65 <=? c) && (c <=? 90))%N eqn:H; [| now rewrite H].
  apply andb_true_iff in H. destruct H as [H1 H2].
  apply N.leb_le in H1, H2.
  replace ((65 <=? c + 32) && (c + 32 <=? 90))%N with false; [reflexivity |].
  symmetry. apply andb_false_iff. right. apply N.leb_gt. lia.
Qed.

Lemma normalising_stable : EmailStr_stable validators.normalising.
Proof.
  intros e e'. simpl. unfold validators.EmailStr_normalising.
  destruct (validators.partition validators.at_sign e) as [[l d] |] eqn:Hp;
    [| discriminate].
  destruct (truthy l && truthy d) eqn:Ht; [| discriminate].
  intros [= <-]. apply partition_local in Hp. destruct Hp as [Hl _].
  rewrite (partition_app _ _ _ Hl).
  assert (Hd : truthy (List.map validators.lower d) = truthy d)
    by (destruct d; reflexivity).
  rewrite Hd, Ht. rewrite map_map.
  rewrite (map_ext _ _ lower_lower). reflexivity.
Qed.

(* ================================================================== *)
(** * The properties of the specification *)
(* ================================================================== *)

Section Claims.
Context {P : Pydantic}.

(** C1. [save] validates in a fixed order, age, then name, then the
    uniqueness of the email.  A user below 18 is refused with
    [InvalidAgeException] whatever the name and the email are; a user of
    valid age whose name is empty after trimming is refused with
    [InvalidUserNameException] whatever the email is; and when [save]
    raises [DuplicateEmailException], the age and the name were valid. *)
Theorem save_validation_order (u : User) (t : table) :
  (age u < 18 ->
   sql.save u t = (inl (InvalidAgeException_init age_message), t))
  /\ (18 <= age u -> strip (name u) = [] ->
      sql.save u t = (inl (InvalidUserNameException_init name_message), t))
  /\ (forall m t',
        sql.save u t = (inl (App DuplicateEmailException m), t') ->
        18 <= age u /\ strip (name u) <> []).
Proof.
  split; [apply save_age_invalid |].
  split; [apply save_name_invalid |].
  intros m t'. rewrite save_eq.
  destruct (age u <? 18) eqn:Ha; [discriminate |].
  destruct (negb (truthy (name u)) || negb (truthy (strip (name u)))) eqn:Hn;
    [discriminate |].
  intros _. apply Z.ltb_ge in Ha. apply nonblank_name_iff in Hn. now split.
Qed.

(** C2. After a successful [create_user], a second [create_user] with the
    same email and any valid name and age raises
    [DuplicateEmailException] and leaves the table as it was; the first
    user is still found under its id with the fields it was created with;
    and no reachable table holds two rows with one email. *)
Theorem duplicate_email_rejected
        (e n : str) (a : Z) (s : UserStatus) (t t1 : table) (u : User) :
  EmailStr_stable P ->
  main.user_service_create_user e n a s t = (inr u, t1) ->
  (forall n2 a2 s2, 18 <= a2 -> strip n2 <> [] ->
     main.user_service_create_user e n2 a2 s2 t1
     = (inl (DuplicateEmailException_init duplicate_message), t1))
  /\ (exists uid,
        id u = Some uid /\ sql.find_by_id uid t1 = (inr u, t1)
        /\ EmailStr e = Some (email u) /\ name u = n /\ age u = a
        /\ status u = s)
  /\ (forall t0, reachable t0 -> forall e0, count_where_email e0 t0 <= 1).
Proof.
  intros Hst H. split; [| split].
  - intros n2 a2 s2 Ha2 Hn2.
    apply create_user_success in H.
    destruct H as (e' & He & _ & _ & _ & _ & ->).
    apply (create_user_duplicate e e'); try assumption.
    rewrite existsb_app. simpl. unfold has_email at 2. simpl.
    rewrite str_eqb_refl. now rewrite orb_true_r.
  - destruct (created_user_found _ _ _ _ _ _ _ Hst H) as [Hid Hfind].
    exists (next_id t). repeat split; try assumption;
      apply create_user_success in H;
      destruct H as (e' & He & _ & _ & _ & -> & _); simpl; congruence.
  - intros t0 Hr e0. apply count_le_one.
    now destruct (reachable_inv t0 Hr) as (_ & Hem & _).
Qed.

(** C4. A user returned by [create_user] carries an id, and [find_by_id]
    (and so the service's [get_user_by_id]) on that id returns that very
    user: the same id, email, name, age and status. *)
Theorem create_find_roundtrip
        (e n : str) (a : Z) (s : UserStatus) (t t' : table) (u : User) :
  EmailStr_stable P ->
  main.user_service_create_user e n a s t = (inr u, t') ->
  exists uid,
    id u = Some uid
    /\ sql.find_by_id uid t' = (inr u, t')
    /\ main.user_service_get_user_by_id uid t' = (inr u, t').
Proof.
  intros Hst H.
  destruct (created_user_found _ _ _ _ _ _ _ Hst H) as [Hid Hfind].
  exists (next_id t). repeat split; try assumption.
  now apply (get_user_by_id_returns (repo := main.user_repository)).
Qed.

(** C5. Below the minimum age nothing is written.  [save] refuses every
    user below 18 with [InvalidAgeException], whatever its email and name,
    and returns the table it was given; [create_user] does the same for
    every address the validator accepts; [email_exists] gives the same
    answer for every email before and after the failed call. *)
Theorem invalid_age_writes_nothing (t : table) :
  (forall u, age u < 18 ->
     sql.save u t = (inl (InvalidAgeException_init age_message), t)
     /\ forall e0,
          outcome (sql.email_exists e0 (store_after (sql.save u t)))
          = outcome (sql.email_exists e0 t))
  /\ (forall e n a s, a < 18 -> EmailStr e <> None ->
        main.user_service_create_user e n a s t
        = (inl (InvalidAgeException_init age_message), t)
        /\ forall e0,
             outcome (sql.email_exists e0
                        (store_after
                           (main.user_service_create_user e n a s t)))
             = outcome (sql.email_exists e0 t)).
Proof.
  split.
  - intros u Ha. pose proof (save_age_invalid u t Ha) as H.
    split; [exact H |]. intros e0. now rewrite H.
  - intros e n a s Ha He.
    assert (H : main.user_service_create_user e n a s t
                = (inl (InvalidAgeException_init age_message), t)).
    { destruct (EmailStr e) as [e' |] eqn:He'; [| congruence].
      now apply (create_user_age_invalid e e'). }
    split; [exact H |]. intros e0. now rewrite H.
Qed.

End Claims.

Section MoreFacts.
Context {P : Pydantic}.

Lemma post_users_eq (req : routes.UserCreateRequest) (t : table) :
  main.post_users req t =
  match main.user_service_create_user (routes.req_email req)
          (routes.req_name req) (routes.req_age req) (routes.req_status req) t
  with
  | (inl exc, t') => (inl exc, t')
  | (inr u, t') => (routes.response_of_user u, t')
  end.
Proof.
  unfold main.post_users, routes.create_user, try_except, bind, lift,
    main.user_service_create_user.
  destruct (userService.create_user _ _ _ _ t) as [[exc | u] t'];
    [reflexivity |].
  destruct (routes.response_of_user u); reflexivity.
Qed.

Lemma get_users_id_eq (i : Z) (t : table) :
  main.get_users_id i t =
  match main.user_service_get_user_by_id i t with
  | (inl exc, t') => (inl exc, t')
  | (inr u, t') => (routes.response_of_user u, t')
  end.
Proof.
  unfold main.get_users_id, routes.get_user, try_except, bind, lift,
    main.user_service_get_user_by_id.
  destruct (userService.get_user_by_id i t) as [[exc | u] t'];
    [reflexivity |].
  destruct (routes.response_of_user u); reflexivity.
Qed.

Lemma get_users_check_email_eq (e : str) (t : table) :
  main.get_users_check_email e t =
  (inr (routes.mkEmailCheckResponse e (0 <? count_where_email e t)
          (negb (0 <? count_where_email e t))), t).
Proof.
  unfold main.get_users_check_email, routes.check_email_exists,
    userService.email_exists, try_except, bind.
  cbn [base.email_exists main.user_repository sql.SQLAlchemyUserRepository].
  rewrite email_exists_eq, count_positive. reflexivity.
Qed.

(** A response model refuses its input with a library exception only. *)
Lemma response_of_user_raises (u : User) (exc : pyexc) :
  routes.response_of_user u = inl exc -> exists c x, exc = Other c x.
Proof.
  unfold routes.response_of_user, routes.UserResponse_init.
  destruct (id u); destruct (EmailStr (email u)); intros [= <-]; eauto.
Qed.


Lemma sql_get_user_by_email_miss (e : str) (t : table) :
  select_where_email e t = None ->
  sql.get_user_by_email e t
  = (inr [(lit "error",
           VStr (base_message ++ base_message ++ no_such_email_message e))],
     t).
Proof.
  intros H. unfold sql.get_user_by_email, try_except. rewrite H.
  reflexivity.
Qed.

Lemma sql_get_user_by_email_total (e : str) (t : table) :
  exists d, sql.get_user_by_email e t = (inr d, t).
Proof.
  unfold sql.get_user_by_email, try_except, bind, lift, ret.
  destruct (select_where_email e t) as [r |].
  - destruct (sql.user_of_row r) as [exc | u];
      [| eexists; reflexivity].
    destruct (catches _ exc); eexists; reflexivity.
  - eexists; reflexivity.
Qed.

End MoreFacts.

Section Claims2.
Context {P : Pydantic}.

(** C3, as the code has it.  Whatever the settings hold, [save] raises
    [InvalidAgeException] exactly when the user's age is below 18, the
    default of [MIN_USER_AGE]; and no row of a reachable table has an age
    below 18. *)
Theorem save_age_threshold (cfg : Settings) (u : User) (t : table) :
  ((exists m t', sql.save u t = (inl (App InvalidAgeException m), t'))
   <-> age u < 18)
  /\ MIN_USER_AGE default_settings = 18
  /\ (reachable t -> Forall (fun r => 18 <= row_age r) t).
Proof.
  split; [| split; [reflexivity |]].
  - split.
    + intros (m & t' & H). rewrite save_eq in H.
      destruct (age u <? 18) eqn:Ha; [now apply Z.ltb_lt |].
      destruct (negb (truthy (name u)) || negb (truthy (strip (name u))));
        [discriminate |].
      destruct (existsb (has_email (email u)) t); [discriminate |].
      destruct (negb (fits_int64 (age u))); [discriminate |].
      destruct (negb (fits_int64 (next_id t))); discriminate.
    + intros Ha. rewrite (save_age_invalid u t Ha).
      unfold InvalidAgeException_init. rewrite subclass_init_eq. eauto.
  - intros Hr. destruct (reachable_inv t Hr) as (_ & _ & Hall).
    eapply Forall_impl; [| exact Hall]. intros r Hv. apply Hv.
Qed.

(** C8. For a row stored in a reachable table, [update_user_status]
    returns the stored user with its status replaced by the requested one,
    and writes nothing: the table is the same afterwards, and [find_by_id]
    still returns the user with the status, email, name and age of the
    row. *)
Theorem update_status_not_persisted
        (t : table) (r : row) (s : UserStatus) :
  EmailStr_stable P -> reachable t -> In r t ->
  exists u0,
    sql.find_by_id (row_id r) t = (inr u0, t)
    /\ main.user_service_update_user_status (row_id r) s t
       = (inr (set_status u0 s), t)
    /\ status (set_status u0 s) = s
    /\ sql.find_by_id (row_id r)
         (store_after (main.user_service_update_user_status (row_id r) s t))
       = (inr u0, t)
    /\ value (status u0) = row_status r
    /\ id u0 = Some (row_id r) /\ email u0 = row_email r
    /\ name u0 = row_name r /\ age u0 = row_age r.
Proof.
  intros Hst Hr Hin.
  destruct (stored_row_rebuilt t r Hst Hr Hin)
    as (s0 & Hs0 & Hfind).
  eexists. split; [exact Hfind |].
  assert (Hup : main.user_service_update_user_status (row_id r) s t
                = (inr (set_status
                          (mkUser (Some (row_id r)) (row_email r)
                             (row_name r) s0 (row_age r)) s), t))
    by (apply (update_user_status_returns (repo := main.user_repository));
        exact Hfind).
  split; [exact Hup |]. split; [reflexivity |].
  split; [rewrite Hup; exact Hfind |].
  simpl. now rewrite Hs0.
Qed.

(** C9, as the code has it.  [check-email] never fails and always answers
    [available = not exists]; for an email with no stored row it answers
    [exists = false, available = true]; after a successful [create_user]
    the query on the created user's email, the address as validated and
    stored, answers [exists = true, available = false], and so does the
    query on the submitted address when the validator stored it
    unchanged. *)
Theorem check_email_reports_stored_address (e : str) (t : table) :
  (exists r,
     main.get_users_check_email e t = (inr r, t)
     /\ routes.check_email r = e
     /\ routes.available r = negb (routes.exists_ r))
  /\ (count_where_email e t = 0 ->
      main.get_users_check_email e t
      = (inr (routes.mkEmailCheckResponse e false true), t))
  /\ (forall n a s u t',
        main.user_service_create_user e n a s t = (inr u, t') ->
        main.get_users_check_email (email u) t'
        = (inr (routes.mkEmailCheckResponse (email u) true false), t')
        /\ (EmailStr e = Some e ->
            main.get_users_check_email e t'
            = (inr (routes.mkEmailCheckResponse e true false), t'))).
Proof.
  split; [| split].
  - rewrite get_users_check_email_eq. eexists. split; [reflexivity |].
    split; reflexivity.
  - intros H. rewrite get_users_check_email_eq, H. reflexivity.
  - intros n a s u t' H. apply create_user_success in H.
    destruct H as (e' & He & _ & _ & _ & -> & ->). simpl.
    assert (Hx : (0 <? count_where_email e'
                         (t ++ [mkRow (next_id t) e' n (value s) a])) = true).
    { rewrite count_positive, existsb_app. simpl.
      unfold has_email at 2. simpl. rewrite str_eqb_refl.
      now rewrite orb_true_r. }
    split.
    + rewrite get_users_check_email_eq, Hx. reflexivity.
    + intros He'. assert (e' = e) by congruence. subst e'.
      rewrite get_users_check_email_eq, Hx. reflexivity.
Qed.

End Claims2.

(** C3, as stated, fails: with [MIN_USER_AGE] configured to 21, [save]
    accepts a user of age 19 ("a@b.com", "Ann") into the empty table. *)
Lemma save_ignores_configured_minimum :
  ~ (forall (cfg : Settings) (u : User) (t : table),
       (exists m t', sql.save u t = (inl (App InvalidAgeException m), t'))
       <-> age u < MIN_USER_AGE cfg).
Proof.
  intros H.
  destruct (proj2 (H (mkSettings (lit "sqlite:///:memory:") 21)
                     (mkUser None (lit "a@b.com") (lit "Ann") ACTIVE 19)
                     empty_table))
    as (m & t' & Hs); [simpl; lia |].
  vm_compute in Hs. discriminate.
Qed.

(** C9, as stated, fails when the validator rewrites the address, as
    pydantic's [EmailStr] does (it stores the domain in lower case): in
    the empty table, [create_user] with "Ann@EXAMPLE.com" succeeds and
    stores "Ann@example.com", and [check-email] on "Ann@EXAMPLE.com" still
    answers [exists = false, available = true]. *)
Lemma check_email_misses_submitted_address :
  ~ (forall (P : Pydantic), EmailStr_stable P ->
     forall (e n : str) (a : Z) (s : UserStatus) (t t' : table) (u : User),
       count_where_email e t = 0 ->
       main.user_service_create_user e n a s t = (inr u, t') ->
       main.get_users_check_email e t'
       = (inr (routes.mkEmailCheckResponse e true false), t')).
Proof.
  intros H.
  specialize (H validators.normalising normalising_stable
                (lit "Ann@EXAMPLE.com") (lit "Ann") 25 ACTIVE empty_table
                [mkRow 1 (lit "Ann@example.com") (lit "Ann") (lit "active") 25]
                (mkUser (Some 1) (lit "Ann@example.com") (lit "Ann") ACTIVE 25)
                eq_refl).
  assert (Hc : main.user_service_create_user (P := validators.normalising)
                 (lit "Ann@EXAMPLE.com") (lit "Ann") 25 ACTIVE empty_table
               = (inr (mkUser (Some 1) (lit "Ann@example.com") (lit "Ann")
                         ACTIVE 25),
                  [mkRow 1 (lit "Ann@example.com") (lit "Ann") (lit "active")
                     25]))
    by (vm_compute; reflexivity).
  specialize (H Hc). vm_compute in H. discriminate.
Qed.

(** ** Messages of the raised errors *)


Lemma doubled_subclass_init (c : exc_class) (m : str) :
  doubled_prefix (subclass_init c m).
Proof.
  intros c' m'. rewrite subclass_init_eq. intros [= <- <-] _.
  exact (startswith_app (base_message ++ base_message) m).
Qed.

Lemma doubled_wrapped (prefix : string) (e : pyexc) :
  doubled_prefix (userService.wrapped prefix e).
Proof.
  destruct (wrapped_class prefix e) as [m ->].
  intros c' m' [= <- <-]. discriminate.
Qed.

Lemma doubled_other (c : string) (x : str) : doubled_prefix (Other c x).
Proof. intros c' m'. discriminate. Qed.

Section MessageFacts.
Context {P : Pydantic}.

Lemma save_raises_doubled (u : User) (t t' : table) (exc : pyexc) :
  sql.save u t = (inl exc, t') -> doubled_prefix exc.
Proof.
  intros H. apply save_raises in H.
  destruct H as [_ [-> | [-> | [-> | [-> | ->]]]]];
    apply doubled_subclass_init.
Qed.

Lemma create_user_raises_doubled
      (e n : str) (a : Z) (s : UserStatus) (t t' : table) (exc : pyexc) :
  main.user_service_create_user e n a s t = (inl exc, t') ->
  doubled_prefix exc.
Proof.
  rewrite create_user_eq. destruct (EmailStr e) as [e' |].
  - destruct (sql.save (mkUser None e' n s a) t) as [[exc0 | u] t1] eqn:Hs;
      [| discriminate].
    destruct (catches validation_classes exc0); intros [= <- _].
    + apply save_raises_doubled in Hs. exact Hs.
    + apply doubled_wrapped.
  - intros [= <- _]. apply doubled_wrapped.
Qed.

Lemma get_user_by_id_eq (i : Z) (t : table) :
  main.user_service_get_user_by_id i t = sql.find_by_id i t.
Proof.
  destruct (sql.find_by_id i t) as [[exc | u] t'] eqn:H.
  - destruct (find_by_id_raises _ _ _ _ H) as [_ [m ->]].
    now apply (get_user_by_id_propagates (repo := main.user_repository)).
  - now apply (get_user_by_id_returns (repo := main.user_repository)).
Qed.

Lemma get_user_by_id_raises_doubled (i : Z) (t t' : table) (exc : pyexc) :
  main.user_service_get_user_by_id i t = (inl exc, t') -> doubled_prefix exc.
Proof.
  rewrite get_user_by_id_eq. intros H.
  destruct (find_by_id_raises _ _ _ _ H) as [_ [m ->]].
  apply doubled_subclass_init.
Qed.

Lemma update_user_status_raises_doubled
      (i : Z) (s : UserStatus) (t t' : table) (exc : pyexc) :
  main.user_service_update_user_status i s t = (inl exc, t') ->
  doubled_prefix exc.
Proof.
  destruct (sql.find_by_id i t) as [[e0 | u] t1] eqn:H.
  - destruct (find_by_id_raises _ _ _ _ H) as [_ [m ->]].
    unfold main.user_service_update_user_status.
    rewrite (update_user_status_propagates
               (repo := main.user_repository) _ _ _ _ _ H).
    intros [= <- _]. apply doubled_subclass_init.
  - unfold main.user_service_update_user_status.
    rewrite (update_user_status_returns
               (repo := main.user_repository) _ _ _ _ _ H).
    discriminate.
Qed.

Lemma get_user_by_email_raises_doubled (e : str) (t t' : table) (exc : pyexc) :
  main.user_service_get_user_by_email e t = (inl exc, t') ->
  doubled_prefix exc.
Proof.
  destruct (sql_get_user_by_email_total e t) as [d Hd].
  unfold main.user_service_get_user_by_email.
  destruct (dict_get (lit "error") d) as [err |] eqn:He.
  - rewrite (get_user_by_email_sentinel
               (repo := main.user_repository) _ _ _ _ _ Hd He).
    intros [= <- _]. apply doubled_subclass_init.
  - rewrite (get_user_by_email_returns
               (repo := main.user_repository) _ _ _ _ Hd).
    + discriminate.
    + unfold dict_contains. now rewrite He.
Qed.

(** The lookups leave the table as it is: [create_user] is the one
    operation that writes. *)
Lemma lookups_keep_table (t : table) :
  (forall i, store_after (main.user_service_get_user_by_id i t) = t)
  /\ (forall e, store_after (main.user_service_get_user_by_email e t) = t)
  /\ (forall e, store_after (main.get_users_check_email e t) = t)
  /\ (forall i s,
        store_after (main.user_service_update_user_status i s t) = t).
Proof.
  split; [| split; [| split]].
  - intros i. rewrite get_user_by_id_eq. apply find_by_id_state.
  - intros e. destruct (sql_get_user_by_email_total e t) as [d Hd].
    unfold main.user_service_get_user_by_email.
    destruct (dict_get (lit "error") d) as [err |] eqn:He.
    + now rewrite (get_user_by_email_sentinel
                     (repo := main.user_repository) _ _ _ _ _ Hd He).
    + rewrite (get_user_by_email_returns
                 (repo := main.user_repository) _ _ _ _ Hd);
        [reflexivity | unfold dict_contains; now rewrite He].
  - intros e. now rewrite get_users_check_email_eq.
  - intros i s. pose proof (find_by_id_state i t) as Hst.
    destruct (sql.find_by_id i t) as [[e0 | u] t1] eqn:H; simpl in Hst; subst.
    + destruct (find_by_id_raises _ _ _ _ H) as [_ [m ->]].
      unfold main.user_service_update_user_status.
      now rewrite (update_user_status_propagates
                     (repo := main.user_repository) _ _ _ _ _ H).
    + unfold main.user_service_update_user_status.
      now rewrite (update_user_status_returns
                     (repo := main.user_repository) _ _ _ _ _ H).
Qed.

End MessageFacts.

Section Claims3.
Context {P : Pydantic}.

(** C6. For every repository and every email: when the repository's
    [get_user_by_email] returns a dictionary holding an ['error'] message,
    the service raises [UserNotFoundException] built from that message
    (the constructors put their prefix twice before it); when the
    dictionary has no ['error'] key, the service returns it unchanged.
    With the SQL repository, an email without a row takes the first
    path. *)
Theorem sentinel_becomes_not_found
        {R : Type} {repo : base.UserRepository R}
        (e : str) (st st' : R) (d : dict) :
  base.get_user_by_email e st = (inr d, st') ->
  (forall err,
     dict_get (lit "error") d = Some (VStr err) ->
     userService.get_user_by_email e st
     = (inl (App UserNotFoundException
               (base_message ++ base_message ++ err)), st'))
  /\ (dict_contains (lit "error") d = false ->
      userService.get_user_by_email e st = (inr d, st'))
  /\ (forall t,
        select_where_email e t = None ->
        main.user_service_get_user_by_email e t
        = (inl (App UserNotFoundException
                  (base_message ++ base_message ++ base_message
                   ++ base_message ++ no_such_email_message e)), t)).
Proof.
  intros H. split; [| split].
  - intros err He.
    now rewrite (get_user_by_email_sentinel _ _ _ _ _ H He).
  - now apply get_user_by_email_returns.
  - intros t Hm. unfold main.user_service_get_user_by_email.
    rewrite (get_user_by_email_sentinel (repo := main.user_repository)
               _ _ _ _ _ (sql_get_user_by_email_miss e t Hm) eq_refl).
    reflexivity.
Qed.

(** C7, as the code has it.  The validation errors of [save]
    ([InvalidAgeException], [InvalidUserNameException],
    [DuplicateEmailException]) and the [UserNotFoundException] of
    [find_by_id] reach the boundary unchanged: the service and the route
    raise what the repository raised, with the table it left.  The
    [UserNotFoundException] that [save] raises for a row it cannot write
    is wrapped by [create_user] into [AppBaseException] and answered with
    500; [save] raises nothing else, and the two lookups by email raise
    nothing.  The handlers answer [InvalidAgeException] and
    [InvalidUserNameException] with 400, [DuplicateEmailException] with
    409, [UserNotFoundException] with 404 and [AppBaseException] with 500,
    each with the body [{"error": category, "detail": message}]. *)
Theorem validation_errors_reach_boundary :
  (forall e n a s u t exc t',
     models.User_init None e n s a = inr u ->
     sql.save u t = (inl exc, t') ->
     (catches validation_classes exc = true
      /\ main.user_service_create_user e n a s t = (inl exc, t')
      /\ main.post_users (routes.mkUserCreateRequest e n a s) t
         = (inl exc, t'))
     \/ (isinstance exc UserNotFoundException = true
         /\ main.user_service_create_user e n a s t
            = (inl (userService.wrapped "Error al crear usuario: " exc), t')
         /\ main.post_users (routes.mkUserCreateRequest e n a s) t
            = (inl (userService.wrapped "Error al crear usuario: " exc), t')
         /\ option_map main.status_code
              (main.exception_handler
                 (userService.wrapped "Error al crear usuario: " exc))
            = Some 500))
  /\ (forall i t exc t',
        sql.find_by_id i t = (inl exc, t') ->
        isinstance exc UserNotFoundException = true
        /\ main.user_service_get_user_by_id i t = (inl exc, t')
        /\ main.get_users_id i t = (inl exc, t'))
  /\ (forall m,
        main.exception_handler (App InvalidAgeException m)
        = Some (main.mkJSONResponse 400
                  [(lit "error", VStr (lit "Edad inválida"));
                   (lit "detail", VStr m)])
        /\ main.exception_handler (App InvalidUserNameException m)
           = Some (main.mkJSONResponse 400
                     [(lit "error", VStr (lit "Nombre de usuario inválido"));
                      (lit "detail", VStr m)])
        /\ main.exception_handler (App DuplicateEmailException m)
           = Some (main.mkJSONResponse 409
                     [(lit "error", VStr (lit "Email duplicado"));
                      (lit "detail", VStr m)])
        /\ main.exception_handler (App UserNotFoundException m)
           = Some (main.mkJSONResponse 404
                     [(lit "error", VStr (lit "Usuario no encontrado"));
                      (lit "detail", VStr m)])
        /\ main.exception_handler (App AppBaseException m)
           = Some (main.mkJSONResponse 500
                     [(lit "error", VStr (lit "Error en la aplicación"));
                      (lit "detail", VStr m)]))
  /\ (forall e t, exists b, sql.email_exists e t = (inr b, t))
  /\ (forall e t, exists d, sql.get_user_by_email e t = (inr d, t)).
Proof.
  split; [| split; [| split; [| split]]];
    [| | | intros e t; rewrite email_exists_eq; eauto
         | intros e t; apply sql_get_user_by_email_total].
  - intros e n a s u t exc t' Hu Hs.
    unfold models.User_init in Hu.
    destruct (EmailStr e) as [e' |] eqn:He; [| discriminate].
    injection Hu as <-.
    destruct (save_raises_class _ _ _ _ Hs) as [-> [Hc | [Hc [x ->]]]].
    + left. pose proof (create_user_of_validation _ _ _ _ _ _ _ _ He Hs Hc)
        as H.
      split; [exact Hc |]. split; [exact H |].
      rewrite post_users_eq. simpl. now rewrite H.
    + right. pose proof (create_user_of_other _ _ _ _ _ _ _ _ He Hs Hc)
        as H.
      split; [reflexivity |]. split; [exact H |]. split.
      * rewrite post_users_eq. simpl. now rewrite H.
      * destruct (wrapped_class "Error al crear usuario: " (save_error x))
          as [m ->]. reflexivity.
  - intros i t exc t' H.
    assert (Hc : main.user_service_get_user_by_id i t = (inl exc, t'))
      by now rewrite get_user_by_id_eq.
    destruct (find_by_id_raises _ _ _ _ H) as [_ [m Hm]].
    split; [rewrite Hm; reflexivity |].
    split; [exact Hc |]. rewrite get_users_id_eq. now rewrite Hc.
  - intros m. repeat split.
Qed.

(** C10. Each of the four subclass constructors yields a message that is
    the prefix "Alphas Error: " twice, then the given text.  Every domain
    error raised by [POST /users], [GET /users/{id}], the service's
    [get_user_by_email] and [update_user_status] has such a message, and
    so has the text under the key ['detail'] of every 400, 404 and 409
    response the handlers build for it. *)
Theorem domain_errors_doubled_prefix :
  (forall c m,
     is_domain_class c = true ->
     subclass_init c m = App c (base_message ++ base_message ++ m)
     /\ startswith (lit "Alphas Error: Alphas Error: ")
          (base_message ++ base_message ++ m) = true)
  /\ (forall req t exc t',
        main.post_users req t = (inl exc, t') -> doubled_prefix exc)
  /\ (forall i t exc t',
        main.get_users_id i t = (inl exc, t') -> doubled_prefix exc)
  /\ (forall e t exc t',
        main.user_service_get_user_by_email e t = (inl exc, t') ->
        doubled_prefix exc)
  /\ (forall i s t exc t',
        main.user_service_update_user_status i s t = (inl exc, t') ->
        doubled_prefix exc)
  /\ (forall exc resp,
        doubled_prefix exc ->
        main.exception_handler exc = Some resp ->
        In (main.status_code resp) [400; 404; 409] ->
        exists category detail,
          main.content resp = main.error_content category detail
          /\ dict_get (lit "error") (main.content resp)
             = Some (VStr category)
          /\ dict_get (lit "detail") (main.content resp)
             = Some (VStr detail)
          /\ startswith (base_message ++ base_message) detail = true).
Proof.
  split; [| split; [| split; [| split; [| split]]]].
  - intros c m _. split; [apply subclass_init_eq |].
    change (lit "Alphas Error: Alphas Error: ")
      with (base_message ++ base_message).
    rewrite app_assoc. apply startswith_app.
  - intros req t exc t'. rewrite post_users_eq.
    destruct (main.user_service_create_user _ _ _ _ t)
      as [[e0 | u] t1] eqn:H.
    + intros [= <- _]. now apply create_user_raises_doubled in H.
    + intros [= Hr _]. apply response_of_user_raises in Hr.
      destruct Hr as (c & x & ->). apply doubled_other.
  - intros i t exc t'. rewrite get_users_id_eq.
    destruct (main.user_service_get_user_by_id i t) as [[e0 | u] t1] eqn:H.
    + intros [= <- _]. now apply get_user_by_id_raises_doubled in H.
    + intros [= Hr _]. apply response_of_user_raises in Hr.
      destruct Hr as (c & x & ->). apply doubled_other.
  - intros e t exc t'. apply get_user_by_email_raises_doubled.
  - intros i s t exc t'. apply update_user_status_raises_doubled.
  - intros exc resp Hd Hh Hin.
    destruct exc as [c m | c x]; [| discriminate].
    destruct c; simpl in Hh; injection Hh as <-; simpl in Hin;
      try (exfalso; lia);
      eexists; eexists;
      (split; [reflexivity |]);
      (split; [vm_compute; reflexivity |]);
      (split; [vm_compute; reflexivity | now apply (Hd _ m eq_refl)]).
Qed.

End Claims3.

(** C7, as stated, fails: an error raised at the repository does not
    always reach the boundary unchanged.  For "bob@b.com", "Bob" and the
    age 9223372036854775808, which does not fit in 64 bits, [save] raises
    [UserNotFoundException] ("Error al guardar usuario: ...") and
    [create_user] raises [AppBaseException] instead, which the handler
    answers with 500 and not with 404. *)
Lemma save_failure_does_not_reach_boundary :
  ~ (forall (P : Pydantic) (e n : str) (a : Z) (s : UserStatus) (u : User)
            (t t' : table) (c : exc_class) (m : str),
       is_domain_class c = true ->
       models.User_init None e n s a = inr u ->
       sql.save u t = (inl (App c m), t') ->
       main.user_service_create_user e n a s t = (inl (App c m), t')).
Proof.
  intros H.
  specialize (H validators.verbatim (lit "bob@b.com") (lit "Bob")
                9223372036854775808 ACTIVE
                (mkUser None (lit "bob@b.com") (lit "Bob") ACTIVE
                   9223372036854775808)
                empty_table empty_table UserNotFoundException
                (base_message ++ base_message
                 ++ lit "Error al guardar usuario: "
                 ++ lit "Python int too large to convert to SQLite INTEGER")
                eq_refl
                ltac:(vm_compute; reflexivity) ltac:(vm_compute; reflexivity)).
  vm_compute in H. discriminate.
Qed.

(* ================================================================== *)
(** * The properties at concrete inputs *)
(* ================================================================== *)

(** The scenario of the specification: Ann is created in the empty
    table. *)
Example create_ann :
  main.user_service_create_user (P := validators.verbatim)
    (lit "a@b.com") (lit "Ann") 25 ACTIVE empty_table
  = (inr scenario.ann, [scenario.ann_row]).
Proof. vm_compute. reflexivity. Qed.

Example post_ann :
  main.post_users (P := validators.verbatim)
    (routes.mkUserCreateRequest (lit "a@b.com") (lit "Ann") 25 ACTIVE)
    empty_table
  = (inr (routes.mkUserResponse 1 (lit "a@b.com") (lit "Ann") 25
            (lit "active")), [scenario.ann_row]).
Proof. vm_compute. reflexivity. Qed.

Example get_missing_user :
  option_map main.status_code
    (match main.get_users_id (P := validators.verbatim) 99999 empty_table with
     | (inl exc, _) => main.exception_handler exc
     | (inr _, _) => None
     end)
  = Some 404.
Proof. vm_compute. reflexivity. Qed.

Lemma reachable_ann : reachable (P := validators.verbatim) [scenario.ann_row].
Proof.
  exact (reachable_create (P := validators.verbatim) empty_table
           (lit "a@b.com") (lit "Ann") 25 ACTIVE reachable_init).
Defined.

(** C1 at three users: too young with a blank name, of age with a blank
    name, and of age with a name and a stored email. *)
Lemma save_validation_order_witness :
  sql.save (mkUser None (lit "a@b.com") (lit "   ") ACTIVE 17) empty_table
  = (inl (InvalidAgeException_init age_message), empty_table)
  /\ sql.save (mkUser None (lit "a@b.com") (lit "   ") ACTIVE 30) empty_table
     = (inl (InvalidUserNameException_init name_message), empty_table)
  /\ (18 <= 30 /\ strip (lit "Bob") <> []).
Proof.
  split; [| split].
  - apply (proj1 (save_validation_order _ _)). simpl. lia.
  - apply (proj1 (proj2 (save_validation_order _ _)));
      [simpl; lia | vm_compute; reflexivity].
  - apply (proj2 (proj2 (save_validation_order
                           (mkUser None (lit "a@b.com") (lit "Bob") INACTIVE 30)
                           [scenario.ann_row]))
             (base_message ++ base_message ++ duplicate_message)
             [scenario.ann_row]).
    vm_compute. reflexivity.
Defined.

(** C2 in the scenario: Bob asks for the address stored for Ann. *)
Lemma duplicate_email_rejected_witness :
  main.user_service_create_user (P := validators.verbatim)
    (lit "a@b.com") (lit "Bob") 30 INACTIVE [scenario.ann_row]
  = (inl (DuplicateEmailException_init duplicate_message),
     [scenario.ann_row]).
Proof.
  apply (proj1 (duplicate_email_rejected (P := validators.verbatim)
                  (lit "a@b.com") (lit "Ann") 25 ACTIVE empty_table
                  [scenario.ann_row] scenario.ann
                  verbatim_stable create_ann));
    [lia | vm_compute; discriminate].
Defined.

(** C3 at a user of age 17, with the minimum configured to 16. *)
Lemma save_age_threshold_witness :
  exists m t',
    sql.save (mkUser None (lit "a@b.com") (lit "Ann") ACTIVE 17) empty_table
    = (inl (App InvalidAgeException m), t').
Proof.
  apply (proj2 (proj1 (save_age_threshold (P := validators.verbatim)
                         (mkSettings (lit "sqlite:///:memory:") 16)
                         (mkUser None (lit "a@b.com") (lit "Ann") ACTIVE 17)
                         empty_table))).
  simpl. lia.
Defined.

(** C4 in the scenario: Ann is found under the id she was given. *)
Lemma create_find_roundtrip_witness :
  exists uid,
    id scenario.ann = Some uid
    /\ sql.find_by_id (P := validators.verbatim) uid [scenario.ann_row]
       = (inr scenario.ann, [scenario.ann_row])
    /\ main.user_service_get_user_by_id (P := validators.verbatim) uid
         [scenario.ann_row]
       = (inr scenario.ann, [scenario.ann_row]).
Proof.
  exact (create_find_roundtrip (P := validators.verbatim)
           (lit "a@b.com") (lit "Ann") 25 ACTIVE empty_table
           [scenario.ann_row] scenario.ann
           verbatim_stable create_ann).
Defined.

(** C5 at two users of age 17, one with an empty name and a stored
    email. *)
Lemma invalid_age_writes_nothing_witness :
  sql.save (mkUser None (lit "a@b.com") (lit "") ACTIVE 17) [scenario.ann_row]
  = (inl (InvalidAgeException_init age_message), [scenario.ann_row])
  /\ main.user_service_create_user (P := validators.verbatim)
       (lit "c@d.org") (lit "Cy") 17 ACTIVE [scenario.ann_row]
     = (inl (InvalidAgeException_init age_message), [scenario.ann_row]).
Proof.
  split.
  - apply (proj1 (invalid_age_writes_nothing (P := validators.verbatim)
                    [scenario.ann_row])
             (mkUser None (lit "a@b.com") (lit "") ACTIVE 17)).
    simpl. lia.
  - apply (proj2 (invalid_age_writes_nothing (P := validators.verbatim)
                    [scenario.ann_row])
             (lit "c@d.org") (lit "Cy") 17 ACTIVE);
      [lia | vm_compute; discriminate].
Defined.

(** C6 over the SQL repository: an email without a row, and Ann's. *)
Lemma sentinel_becomes_not_found_witness :
  userService.get_user_by_email
    (user_repository := main.user_repository (P := validators.verbatim))
    (lit "c@d.org") [scenario.ann_row]
  = (inl (App UserNotFoundException
            (base_message ++ base_message ++ base_message ++ base_message
             ++ no_such_email_message (lit "c@d.org"))),
     [scenario.ann_row])
  /\ userService.get_user_by_email
       (user_repository := main.user_repository (P := validators.verbatim))
       (lit "a@b.com") [scenario.ann_row]
     = (inr (User_dict scenario.ann), [scenario.ann_row]).
Proof.
  split.
  - apply (proj1 (sentinel_becomes_not_found (P := validators.verbatim)
                    (repo := main.user_repository (P := validators.verbatim))
                    (lit "c@d.org") [scenario.ann_row] [scenario.ann_row]
                    [(lit "error",
                      VStr (base_message ++ base_message
                            ++ no_such_email_message (lit "c@d.org")))]
                    ltac:(vm_compute; reflexivity))).
    vm_compute. reflexivity.
  - apply (proj1 (proj2 (sentinel_becomes_not_found
                           (P := validators.verbatim)
                           (repo := main.user_repository
                                      (P := validators.verbatim))
                           (lit "a@b.com") [scenario.ann_row]
                           [scenario.ann_row] (User_dict scenario.ann)
                           ltac:(vm_compute; reflexivity)))).
    vm_compute. reflexivity.
Defined.

(** C7 at a duplicate email, at an age that does not fit in 64 bits and
    at a missing id. *)
Lemma validation_errors_reach_boundary_witness :
  main.post_users (P := validators.verbatim)
    (routes.mkUserCreateRequest (lit "a@b.com") (lit "Bob") 30 INACTIVE)
    [scenario.ann_row]
  = (inl (DuplicateEmailException_init duplicate_message),
     [scenario.ann_row])
  /\ main.post_users (P := validators.verbatim)
       (routes.mkUserCreateRequest (lit "bob@b.com") (lit "Bob")
          9223372036854775808 INACTIVE)
       [scenario.ann_row]
     = (inl (userService.wrapped "Error al crear usuario: "
               (save_error OverflowError)), [scenario.ann_row])
  /\ main.get_users_id (P := validators.verbatim) 99999 empty_table
     = (inl (UserNotFoundException_init (not_found_message 99999)),
        empty_table).
Proof.
  split; [| split].
  - destruct (proj1 (validation_errors_reach_boundary
                       (P := validators.verbatim))
                (lit "a@b.com") (lit "Bob") 30 INACTIVE
                (mkUser None (lit "a@b.com") (lit "Bob") INACTIVE 30)
                [scenario.ann_row]
                (DuplicateEmailException_init duplicate_message)
                [scenario.ann_row]
                ltac:(vm_compute; reflexivity) ltac:(vm_compute; reflexivity))
      as [(_ & _ & H) | (Hc & _)].
    + exact H.
    + vm_compute in Hc. discriminate.
  - destruct (proj1 (validation_errors_reach_boundary
                       (P := validators.verbatim))
                (lit "bob@b.com") (lit "Bob") 9223372036854775808 INACTIVE
                (mkUser None (lit "bob@b.com") (lit "Bob") INACTIVE
                   9223372036854775808)
                [scenario.ann_row] (save_error OverflowError)
                [scenario.ann_row]
                ltac:(vm_compute; reflexivity) ltac:(vm_compute; reflexivity))
      as [(Hc & _) | (_ & _ & H & _)].
    + vm_compute in Hc. discriminate.
    + exact H.
  - apply (proj1 (proj2 (validation_errors_reach_boundary
                           (P := validators.verbatim)))).
    vm_compute. reflexivity.
Defined.

(** C8 in the scenario: Ann is returned inactive and stays active in
    the table. *)
Lemma update_status_not_persisted_witness :
  exists u0,
    sql.find_by_id (P := validators.verbatim) 1 [scenario.ann_row]
    = (inr u0, [scenario.ann_row])
    /\ main.user_service_update_user_status (P := validators.verbatim) 1
         INACTIVE [scenario.ann_row]
       = (inr (set_status u0 INACTIVE), [scenario.ann_row])
    /\ status u0 = ACTIVE.
Proof.
  destruct (update_status_not_persisted (P := validators.verbatim)
              [scenario.ann_row] scenario.ann_row INACTIVE
              verbatim_stable reachable_ann
              (or_introl eq_refl))
    as (u0 & Hf & Hu & _ & _ & Hs & _).
  exists u0. split; [exact Hf |]. split; [exact Hu |].
  destruct (status u0); [reflexivity | vm_compute in Hs; discriminate].
Defined.

(** C9 with a validator that rewrites the address: before and after the
    creation of "Ann@EXAMPLE.com". *)
Lemma check_email_reports_stored_address_witness :
  main.get_users_check_email (P := validators.normalising)
    (lit "Ann@EXAMPLE.com") empty_table
  = (inr (routes.mkEmailCheckResponse (lit "Ann@EXAMPLE.com") false true),
     empty_table)
  /\ main.get_users_check_email (P := validators.normalising)
       (lit "Ann@example.com")
       [mkRow 1 (lit "Ann@example.com") (lit "Ann") (lit "active") 25]
     = (inr (routes.mkEmailCheckResponse (lit "Ann@example.com") true false),
        [mkRow 1 (lit "Ann@example.com") (lit "Ann") (lit "active") 25]).
Proof.
  split.
  - apply (proj1 (proj2 (check_email_reports_stored_address
                           (P := validators.normalising)
                           (lit "Ann@EXAMPLE.com") empty_table))).
    reflexivity.
  - apply (proj1 (proj2 (proj2 (check_email_reports_stored_address
                                  (P := validators.normalising)
                                  (lit "Ann@EXAMPLE.com") empty_table))
                    (lit "Ann") 25 ACTIVE
                    (mkUser (Some 1) (lit "Ann@example.com") (lit "Ann")
                       ACTIVE 25)
                    [mkRow 1 (lit "Ann@example.com") (lit "Ann")
                       (lit "active") 25]
                    ltac:(vm_compute; reflexivity))).
Defined.

(** C10 at the duplicate-email error and its 409 response. *)
Lemma domain_errors_doubled_prefix_witness :
  subclass_init DuplicateEmailException duplicate_message
  = App DuplicateEmailException
      (base_message ++ base_message ++ duplicate_message)
  /\ doubled_prefix (DuplicateEmailException_init duplicate_message)
  /\ exists category detail,
       main.content
         (main.mkJSONResponse 409
            (main.error_content (lit "Email duplicado")
               (base_message ++ base_message ++ duplicate_message)))
       = main.error_content category detail
       /\ dict_get (lit "error")
            (main.content
               (main.mkJSONResponse 409
                  (main.error_content (lit "Email duplicado")
                     (base_message ++ base_message ++ duplicate_message))))
          = Some (VStr category)
       /\ dict_get (lit "detail")
            (main.content
               (main.mkJSONResponse 409
                  (main.error_content (lit "Email duplicado")
                     (base_message ++ base_message ++ duplicate_message))))
          = Some (VStr detail)
       /\ startswith (base_message ++ base_message) detail = true.
Proof.
  assert (Hd : doubled_prefix (DuplicateEmailException_init duplicate_message)).
  { apply (proj1 (proj2 (domain_errors_doubled_prefix
                           (P := validators.verbatim)))
             (routes.mkUserCreateRequest (lit "a@b.com") (lit "Bob") 30
                INACTIVE)
             [scenario.ann_row] _ [scenario.ann_row]).
    vm_compute. reflexivity. }
  split; [| split].
  - apply (proj1 (domain_errors_doubled_prefix (P := validators.verbatim))).
    reflexivity.
  - exact Hd.
  - apply (proj2 (proj2 (proj2 (proj2 (proj2
             (domain_errors_doubled_prefix (P := validators.verbatim))))))
             (DuplicateEmailException_init duplicate_message) _ Hd eq_refl).
    simpl. tauto.
Defined.

(* ================================================================== *)
(** * Further properties of the code *)
(* ================================================================== *)

(** ** Whitespace *)

Lemma lstrip_head (s : str) (c : N) (r : str) :
  lstrip s = c :: r -> isspace c = false.
Proof.
  induction s as [| a s IH]; simpl; [discriminate |].
  destruct (isspace a) eqn:Ha; [exact IH |].
  intros [= <- _]. exact Ha.
Qed.

Lemma lstrip_nil_iff (s : str) : lstrip s = [] <-> forallb isspace s = true.
Proof.
  induction s as [| a s IH]; simpl; [tauto |].
  destruct (isspace a); simpl; [exact IH |].
  split; discriminate.
Qed.

Lemma forallb_rev_true {A} (f : A -> bool) (l : list A) :
  forallb f (rev l) = true -> forallb f l = true.
Proof.
  rewrite !forallb_forall. intros H x Hx. apply H. now apply in_rev in Hx.
Qed.

(** A string is empty after [strip] exactly when all its characters are
    whitespace. *)
Lemma strip_nil_iff (s : str) : strip s = [] <-> forallb isspace s = true.
Proof.
  split.
  - unfold strip, rstrip. intros H.
    assert (H0 : lstrip (rev (lstrip s)) = []).
    { destruct (lstrip (rev (lstrip s))) as [| c r]; [reflexivity |].
      simpl in H. now apply app_eq_nil in H. }
    apply lstrip_nil_iff, forallb_rev_true in H0.
    destruct (lstrip s) as [| c r] eqn:Hl; [now apply lstrip_nil_iff |].
    apply lstrip_head in Hl. simpl in H0. rewrite Hl in H0. discriminate.
  - intros H. apply lstrip_nil_iff in H. unfold strip. now rewrite H.
Qed.

(** ** Keys and lookups *)

Lemma select_where_id_app (i : Z) (t l : table) (r : row) :
  select_where_id i t = Some r -> select_where_id i (t ++ l) = Some r.
Proof.
  unfold select_where_id. induction t as [| r0 t IH]; simpl; [discriminate |].
  destruct (has_id i r0); [tauto | exact IH].
Qed.

Lemma select_where_id_none (i : Z) (t : table) :
  select_where_id i t = None <-> ~ In i (List.map row_id t).
Proof.
  unfold select_where_id. induction t as [| r t IH]; simpl; [tauto |].
  unfold has_id at 1. destruct (row_id r =? i) eqn:H.
  - apply Z.eqb_eq in H. split; [discriminate | tauto].
  - apply Z.eqb_neq in H. rewrite IH. tauto.
Qed.

Lemma select_where_email_none (e : str) (t : table) :
  select_where_email e t = None <-> existsb (has_email e) t = false.
Proof.
  unfold select_where_email. induction t as [| r t IH]; simpl; [tauto |].
  destruct (has_email e r); simpl; [split; discriminate | exact IH].
Qed.

Lemma select_where_email_some (e : str) (t : table) (r : row) :
  select_where_email e t = Some r -> In r t /\ row_email r = e.
Proof.
  unfold select_where_email. intros H. apply find_some in H.
  destruct H as [Hin He]. split; [exact Hin | now apply str_eqb_eq].
Qed.

Lemma select_where_email_new (e : str) (t : table) (r : row) :
  existsb (has_email e) t = false -> row_email r = e ->
  select_where_email e (t ++ [r]) = Some r.
Proof.
  unfold select_where_email. intros Hn He.
  induction t as [| r0 t IH]; simpl in *.
  - unfold has_email. now rewrite He, str_eqb_refl.
  - apply orb_false_iff in Hn. destruct Hn as [H0 Hn].
    rewrite H0. now apply IH.
Qed.

Lemma select_where_email_in (e : str) (t : table) (r : row) :
  NoDup (List.map row_email t) -> In r t -> row_email r = e ->
  select_where_email e t = Some r.
Proof.
  unfold select_where_email. intros Hnd Hin He. subst e.
  induction t as [| r0 t IH]; simpl in *; [tauto |].
  inversion Hnd as [| x l Hnotin Hnd']; subst.
  destruct Hin as [-> | Hin].
  - unfold has_email. now rewrite str_eqb_refl.
  - destruct (has_email (row_email r) r0) eqn:Hh.
    + exfalso. apply Hnotin. unfold has_email in Hh. apply str_eqb_eq in Hh.
      rewrite Hh. now apply in_map.
    + now apply IH.
Qed.

Lemma fold_max_attained (t : table) (z : Z) :
  fold_right (fun r m => Z.max (row_id r) m) z t = z
  \/ exists r, In r t
       /\ fold_right (fun r' m => Z.max (row_id r') m) z t = row_id r.
Proof.
  induction t as [| r0 t IH]; simpl; [now left |].
  destruct (Z.max_spec (row_id r0)
              (fold_right (fun r' m => Z.max (row_id r') m) z t))
    as [[_ ->] | [_ ->]].
  - destruct IH as [IH | [r [Hin IH]]]; [now left |].
    right. exists r. split; [now right | exact IH].
  - right. exists r0. split; [now left | reflexivity].
Qed.

(** The new key is one more than a key in use. *)
Lemma next_id_attained (t : table) :
  t <> [] -> exists r, In r t /\ next_id t = 1 + row_id r.
Proof.
  destruct t as [| r0 t]; [congruence |]. intros _. unfold next_id.
  destruct (fold_max_attained t (row_id r0)) as [-> | [r [Hin ->]]].
  - exists r0. split; [now left | reflexivity].
  - exists r. split; [now right | reflexivity].
Qed.

Lemma in_first_ids (z : Z) (n : nat) :
  In z (first_ids n) <-> 1 <= z <= Z.of_nat n.
Proof.
  unfold first_ids. rewrite in_map_iff. split.
  - intros [k [<- Hk]]. apply in_seq in Hk. lia.
  - intros H. exists (Z.to_nat z). split; [lia |]. apply in_seq. lia.
Qed.

Lemma first_ids_succ (n : nat) :
  first_ids (S n) = first_ids n ++ [Z.of_nat n + 1].
Proof.
  unfold first_ids. rewrite seq_S, map_app. simpl.
  do 2 f_equal. lia.
Qed.

Lemma next_id_first_ids (t : table) :
  List.map row_id t = first_ids (List.length t) ->
  next_id t = Z.of_nat (List.length t) + 1.
Proof.
  intros H. destruct (List.length t) as [| n] eqn:Hlen.
  - destruct t; [reflexivity | discriminate].
  - assert (Hne : t <> []) by (intros ->; discriminate).
    destruct (next_id_attained t Hne) as [r [Hin Hr]].
    assert (Hup : row_id r <= Z.of_nat (S n)).
    { assert (Hi : In (row_id r) (List.map row_id t)) by now apply in_map.
      rewrite H in Hi. apply in_first_ids in Hi. lia. }
    assert (Hlow : Z.of_nat (S n) < next_id t).
    { assert (Hi : In (Z.of_nat (S n)) (List.map row_id t)).
      { rewrite H. apply in_first_ids. lia. }
      apply in_map_iff in Hi. destruct Hi as [r' [Hr' Hin']].
      rewrite <- Hr'. now apply next_id_fresh. }
    lia.
Qed.

(** ** The repository and the service, continued *)

Section FurtherFacts.
Context {P : Pydantic}.

Lemma User_dict_no_error (u : User) :
  dict_get (lit "error") (User_dict u) = None.
Proof. destruct u. vm_compute. reflexivity. Qed.

Lemma sql_get_user_by_email_found (e : str) (t : table) (r : row) (u : User) :
  select_where_email e t = Some r -> sql.user_of_row r = inr u ->
  sql.get_user_by_email e t = (inr (User_dict u), t).
Proof.
  intros H Hu. unfold sql.get_user_by_email, try_except, bind, lift, ret.
  now rewrite H, Hu.
Qed.

Lemma service_get_user_by_email_found (e : str) (t : table) (u : User) :
  sql.get_user_by_email e t = (inr (User_dict u), t) ->
  main.user_service_get_user_by_email e t = (inr (User_dict u), t).
Proof.
  intros H. unfold main.user_service_get_user_by_email.
  apply (get_user_by_email_returns (repo := main.user_repository)
           _ _ _ _ H).
  unfold dict_contains. now rewrite User_dict_no_error.
Qed.

Lemma get_user_info_eq (i : Z) (t : table) :
  main.user_service_get_user_info i t =
  match sql.find_by_id i t with
  | (inl exc, t') => (inl exc, t')
  | (inr u, t') => (inr (info_dict u), t')
  end.
Proof.
  pose proof (get_user_by_id_eq i t) as E.
  unfold main.user_service_get_user_by_id in E.
  unfold main.user_service_get_user_info, userService.get_user_info,
    try_except, bind.
  rewrite E.
  destruct (sql.find_by_id i t) as [[exc | u] t'] eqn:H; [| reflexivity].
  destruct (find_by_id_raises _ _ _ _ H) as [_ [m ->]]. reflexivity.
Qed.

Lemma update_user_status_eq (i : Z) (s : UserStatus) (t : table) :
  main.user_service_update_user_status i s t =
  match sql.find_by_id i t with
  | (inl exc, t') => (inl exc, t')
  | (inr u, t') => (inr (set_status u s), t')
  end.
Proof.
  unfold main.user_service_update_user_status.
  destruct (sql.find_by_id i t) as [[exc | u] t'] eqn:H.
  - destruct (find_by_id_raises _ _ _ _ H) as [_ [m ->]].
    now apply (update_user_status_propagates (repo := main.user_repository)).
  - now apply (update_user_status_returns (repo := main.user_repository)).
Qed.

(** A created user is answered by the response model as it is. *)
Lemma response_of_created (i : Z) (e n : str) (s : UserStatus) (a : Z) :
  EmailStr e = Some e ->
  routes.response_of_user (mkUser (Some i) e n s a)
  = inr (routes.mkUserResponse i e n a (value s)).
Proof.
  intros He. unfold routes.response_of_user, routes.UserResponse_init.
  simpl. now rewrite He.
Qed.


Lemma reachable_first_ids (t : table) :
  reachable t -> List.map row_id t = first_ids (List.length t).
Proof.
  induction 1 as [| t e n a s _ IH]; [reflexivity |].
  destruct (main.user_service_create_user e n a s t) as [[exc | u] t'] eqn:H.
  - apply create_user_failure in H. simpl. now subst.
  - apply create_user_success in H.
    destruct H as (e' & _ & _ & _ & _ & _ & ->). simpl.
    rewrite map_app, length_app. simpl.
    rewrite Nat.add_1_r, first_ids_succ, <- IH. simpl.
    now rewrite (next_id_first_ids t IH).
Qed.

Lemma find_by_id_missing_id (i : Z) (t : table) :
  fits_int64 i = true -> ~ In i (List.map row_id t) ->
  sql.find_by_id i t
  = (inl (UserNotFoundException_init (not_found_message i)), t).
Proof.
  intros Hi H. apply find_by_id_missing; [exact Hi |].
  now apply select_where_id_none.
Qed.

(** What [find_by_id] raises is raised on every path by id. *)
Lemma lookups_raise_of_find (i : Z) (s : UserStatus) (t : table) (m : str) :
  sql.find_by_id i t = (inl (UserNotFoundException_init m), t) ->
  lookups_raise i s t (UserNotFoundException_init m).
Proof.
  intros H.
  assert (Hs : main.user_service_get_user_by_id i t
               = (inl (UserNotFoundException_init m), t))
    by now rewrite get_user_by_id_eq.
  repeat split.
  - exact H.
  - exact Hs.
  - rewrite get_users_id_eq. now rewrite Hs.
  - rewrite update_user_status_eq. now rewrite H.
  - rewrite get_user_info_eq. now rewrite H.
Qed.

End FurtherFacts.

Section Extras1.
Context {P : Pydantic}.

(** X1. A lookup by an id without a row ends in
    [UserNotFoundException] on every path: [find_by_id], the service's
    [get_user_by_id], [update_user_status] and [get_user_info], and
    [GET /users/{id}].  For an id that fits in 64 bits and that no row
    carries the message names the id; for an id that does not fit the
    message carries the driver's refusal behind "Error al buscar
    usuario: ".  In both cases the table is left as it is and the handler
    answers 404. *)
Theorem missing_id_not_found (i : Z) (s : UserStatus) (t : table) :
  (fits_int64 i = true -> ~ In i (List.map row_id t) ->
   lookups_raise i s t (UserNotFoundException_init (not_found_message i))
   /\ main.exception_handler
        (UserNotFoundException_init (not_found_message i))
      = Some (main.mkJSONResponse 404
                [(lit "error", VStr (lit "Usuario no encontrado"));
                 (lit "detail",
                  VStr (base_message ++ base_message
                        ++ not_found_message i))]))
  /\ (fits_int64 i = false ->
      lookups_raise i s t
        (UserNotFoundException_init
           (lit "Error al buscar usuario: "
            ++ lit "Python int too large to convert to SQLite INTEGER"))).
Proof.
  split.
  - intros Hfit Hi. split; [| reflexivity].
    apply lookups_raise_of_find. now apply find_by_id_missing_id.
  - intros Hfit. apply lookups_raise_of_find.
    now rewrite (find_by_id_overflow i t Hfit).
Qed.


(** X3. Keys are handed out in order and never reused: the rows of a
    reachable table carry the keys 1, 2, ..., n in insertion order, and a
    successful [create_user] returns the key n + 1 and makes the table one
    row longer. *)
Theorem reachable_ids_consecutive (t : table) :
  reachable t ->
  List.map row_id t = first_ids (List.length t)
  /\ (forall e n a s u t',
        main.user_service_create_user e n a s t = (inr u, t') ->
        id u = Some (Z.of_nat (List.length t) + 1)
        /\ List.length t' = S (List.length t)).
Proof.
  intros Hr. pose proof (reachable_first_ids t Hr) as Hids.
  split; [exact Hids |].
  intros e n a s u t' H. apply create_user_success in H.
  destruct H as (e' & _ & _ & _ & _ & -> & ->). simpl.
  rewrite (next_id_first_ids t Hids), length_app. simpl.
  split; [reflexivity | lia].
Qed.


End Extras1.

(** X1 at the id 99999 of the specification and at the id
    9223372036854775808, in the table holding Ann. *)
Lemma missing_id_not_found_witness :
  main.get_users_id (P := validators.verbatim) 99999 [scenario.ann_row]
  = (inl (UserNotFoundException_init (not_found_message 99999)),
     [scenario.ann_row])
  /\ main.get_users_id (P := validators.verbatim) 9223372036854775808
       [scenario.ann_row]
     = (inl (UserNotFoundException_init
               (lit "Error al buscar usuario: "
                ++ lit "Python int too large to convert to SQLite INTEGER")),
        [scenario.ann_row]).
Proof.
  split.
  - apply (proj1 (missing_id_not_found (P := validators.verbatim) 99999
                    ACTIVE [scenario.ann_row])).
    + reflexivity.
    + simpl. intros [H | []]. discriminate.
  - apply (proj2 (missing_id_not_found (P := validators.verbatim)
                    9223372036854775808 ACTIVE [scenario.ann_row])).
    reflexivity.
Defined.


(** X3 in the table holding Ann. *)
Lemma reachable_ids_consecutive_witness :
  List.map row_id [scenario.ann_row] = first_ids 1.
Proof.
  exact (proj1 (reachable_ids_consecutive (P := validators.verbatim)
                  [scenario.ann_row] reachable_ann)).
Defined.

Section Extras2.
Context {P : Pydantic}.

(** X5. Insert, then look up by email: after a successful [create_user]
    the repository's [get_user_by_email] on the created user's email
    returns that user's dictionary (id, email, name, status, age), and the
    service returns the same dictionary without raising. *)
Theorem create_then_get_by_email
        (e n : str) (a : Z) (s : UserStatus) (t t' : table) (u : User) :
  EmailStr_stable P ->
  main.user_service_create_user e n a s t = (inr u, t') ->
  sql.get_user_by_email (email u) t' = (inr (User_dict u), t')
  /\ main.user_service_get_user_by_email (email u) t'
     = (inr (User_dict u), t')
  /\ dict_get (lit "email") (User_dict u) = Some (VStr (email u))
  /\ dict_get (lit "status") (User_dict u) = Some (VStatus s).
Proof.
  intros Hst H. apply create_user_success in H.
  destruct H as (e' & He & _ & _ & Hx & -> & ->). simpl.
  set (r := mkRow (next_id t) e' n (value s) a).
  assert (Hrepo : sql.get_user_by_email e' (t ++ [r])
                  = (inr (User_dict (mkUser (Some (next_id t)) e' n s a)),
                     t ++ [r])).
  { apply sql_get_user_by_email_found with (r := r).
    - now apply select_where_email_new.
    - apply (user_of_row_ok r s); [| reflexivity]. simpl. now apply (Hst e). }
  split; [exact Hrepo |].
  split; [now apply service_get_user_by_email_found |].
  split; vm_compute; reflexivity.
Qed.

(** X6. [get_user_info] on the id of a created user returns the five
    fields it was created with, the status as its text; on any id it
    raises exactly what [find_by_id] raises. *)
Theorem create_then_get_user_info
        (e n : str) (a : Z) (s : UserStatus) (t t' : table) (u : User) :
  EmailStr_stable P ->
  main.user_service_create_user e n a s t = (inr u, t') ->
  exists uid,
    id u = Some uid
    /\ main.user_service_get_user_info uid t'
       = (inr [ (lit "id", VInt uid);
                (lit "email", VStr (email u));
                (lit "name", VStr n);
                (lit "age", VInt a);
                (lit "status", VStr (value s)) ], t')
    /\ (forall i exc t1,
          sql.find_by_id i t' = (inl exc, t1) ->
          main.user_service_get_user_info i t' = (inl exc, t1)).
Proof.
  intros Hst H.
  destruct (created_user_found _ _ _ _ _ _ _ Hst H) as [Hid Hfind].
  exists (next_id t). split; [exact Hid |]. split.
  - rewrite get_user_info_eq, Hfind.
    apply create_user_success in H.
    destruct H as (e' & _ & _ & _ & _ & -> & _). reflexivity.
  - intros i exc t1 Hf. rewrite get_user_info_eq. now rewrite Hf.
Qed.

(** X7. The two lookups by email agree on every reachable table:
    [email_exists] answers [True] exactly when [get_user_by_email] returns
    the dictionary of a stored row with that email, and [False] exactly
    when it returns the sentinel [{'error': ...}]. *)
Theorem email_lookups_agree (t : table) (e : str) :
  EmailStr_stable P -> reachable t ->
  (sql.email_exists e t = (inr true, t) /\
   exists r s,
     In r t /\ row_email r = e /\ row_status r = value s
     /\ sql.get_user_by_email e t = (inr (User_dict (user_of r s)), t))
  \/ (sql.email_exists e t = (inr false, t) /\
      sql.get_user_by_email e t
      = (inr [(lit "error",
               VStr (base_message ++ base_message
                     ++ no_such_email_message e))], t)).
Proof.
  intros Hst Hr. rewrite email_exists_eq.
  destruct (existsb (has_email e) t) eqn:Hx.
  - left. split; [reflexivity |].
    destruct (select_where_email e t) as [r |] eqn:Hsel.
    + destruct (select_where_email_some _ _ _ Hsel) as [Hin He].
      destruct (reachable_inv t Hr) as (_ & _ & Hall).
      rewrite Forall_forall in Hall.
      destruct (Hall r Hin) as (_ & _ & [s Hs] & [e0 He0]).
      exists r, s. repeat split; try assumption.
      apply sql_get_user_by_email_found with (r := r); [exact Hsel |].
      apply user_of_row_ok; [now apply (Hst e0) | exact Hs].
    + apply select_where_email_none in Hsel. congruence.
  - right. split; [reflexivity |].
    apply sql_get_user_by_email_miss. now apply select_where_email_none.
Qed.

(** X8. The standalone validators and [save] draw the same line: both
    [validate_user_age] and [validate_user_name] return [True] for a
    user's age and name exactly when [save], on every table, raises
    neither [InvalidAgeException] nor [InvalidUserNameException] (it
    stores the user, refuses it for its email, or fails to write the
    row).  Below 18 [validate_user_age] raises the very exception [save]
    raises. *)
Theorem validators_agree_with_save (u : User) :
  ((userService.validate_user_age (age u) = inr true
    /\ userService.validate_user_name (name u) = inr true)
   <-> (forall t,
          sql.save u t
          = (inl (DuplicateEmailException_init duplicate_message), t)
          \/ sql.save u t
             = (inr (set_id u (Some (next_id t))), t ++ [new_row u t])
          \/ exists x,
               sql.save u t
               = (inl (UserNotFoundException_init
                         (lit "Error al guardar usuario: " ++ str_exc x)),
                  t)))
  /\ (age u < 18 ->
      userService.validate_user_age (age u)
      = inl (InvalidAgeException_init age_message)
      /\ forall t, outcome (sql.save u t)
                   = inl (InvalidAgeException_init age_message)).
Proof.
  split; [split |].
  - intros [Ha Hn] t.
    apply validate_user_age_ok in Ha. apply validate_user_name_ok in Hn.
    destruct (existsb (has_email (email u)) t) eqn:Hx;
      [left; now apply save_duplicate |].
    right. rewrite save_eq.
    apply Z.ltb_ge in Ha. rewrite Ha.
    apply nonblank_name_iff in Hn. rewrite Hn, Hx.
    destruct (negb (fits_int64 (age u)));
      [right; eexists; reflexivity |].
    destruct (negb (fits_int64 (next_id t)));
      [right; eexists; reflexivity | now left].
  - intros H. specialize (H []). rewrite save_eq in H.
    unfold InvalidAgeException_init, InvalidUserNameException_init,
      DuplicateEmailException_init, UserNotFoundException_init in H.
    rewrite !subclass_init_eq in H.
    split.
    + apply validate_user_age_ok.
      destruct (age u <? 18) eqn:Ha; [| now apply Z.ltb_ge].
      destruct H as [H | [H | [x H]]]; discriminate.
    + apply validate_user_name_ok. apply nonblank_name_iff.
      destruct (age u <? 18);
        [destruct H as [H | [H | [x H]]]; discriminate |].
      destruct (negb (truthy (name u)) || negb (truthy (strip (name u))));
        [destruct H as [H | [H | [x H]]]; discriminate | reflexivity].
  - intros Ha. split.
    + unfold userService.validate_user_age.
      apply Z.ltb_lt in Ha. now rewrite Ha.
    + intros t. now rewrite (save_age_invalid u t Ha).
Qed.

(** X9. A name is refused exactly when it has no character other than
    whitespace (the empty name included): this is when
    [validate_user_name] raises [InvalidUserNameException], and when
    [save] raises it for a user of age 18 or more. *)
Theorem blank_name_all_whitespace (n : str) :
  (userService.validate_user_name n
   = inl (InvalidUserNameException_init
            (lit "El nombre no puede estar vacío o solo contener espacios"))
   <-> forallb isspace n = true)
  /\ (forall u t,
        name u = n -> 18 <= age u ->
        (sql.save u t = (inl (InvalidUserNameException_init name_message), t)
         <-> forallb isspace n = true)).
Proof.
  split.
  - rewrite <- strip_nil_iff, <- blank_name_iff.
    unfold userService.validate_user_name.
    destruct (negb (truthy n) || negb (truthy (strip n)));
      split; try reflexivity; discriminate.
  - intros u t Hn Ha. rewrite <- strip_nil_iff. subst n. split.
    + intros H. rewrite save_eq in H.
      apply Z.ltb_ge in Ha. rewrite Ha in H.
      apply blank_name_iff.
      destruct (negb (truthy (name u)) || negb (truthy (strip (name u))));
        [reflexivity |].
      destruct (existsb (has_email (email u)) t); [discriminate |].
      destruct (negb (fits_int64 (age u))); [discriminate |].
      destruct (negb (fits_int64 (next_id t))); discriminate.
    + now apply save_name_invalid.
Qed.

(** X10. The address is validated before anything else: when the
    validator refuses it, [create_user] raises the generic
    [AppBaseException] carrying the validation text behind a single
    prefix, whatever the age and the name are, and writes nothing; the
    handler answers it with 500.  A request [POST /users] with such an
    address does not get that far: the request model refuses it with a
    validation error, for which the application has no handler, and
    nothing is written.  With an accepted address the request reaches the
    route function, holding the validated address. *)
Theorem refused_address_generic_error
        (e n : str) (a : Z) (s : UserStatus) (t : table) :
  (EmailStr e = None ->
   let msg := base_message ++ lit "Error al crear usuario: "
              ++ ValidationError_str "User" [("email"%string, VStr e)] in
   let refusal := Other "ValidationError"
                    (ValidationError_str "UserCreateRequest"
                       [("email"%string, VStr e)]) in
   main.user_service_create_user e n a s t
   = (inl (App AppBaseException msg), t)
   /\ main.exception_handler (App AppBaseException msg)
      = Some (main.mkJSONResponse 500
                [(lit "error", VStr (lit "Error en la aplicación"));
                 (lit "detail", VStr msg)])
   /\ routes.UserCreateRequest_init e n a s = inl refusal
   /\ main.request_post_users e n a s t = (inl refusal, t)
   /\ main.exception_handler refusal = None)
  /\ (forall e',
        EmailStr e = Some e' ->
        routes.UserCreateRequest_init e n a s
        = inr (routes.mkUserCreateRequest e' n a s)
        /\ main.request_post_users e n a s t
           = main.post_users (routes.mkUserCreateRequest e' n a s) t).
Proof.
  split.
  - intros He msg refusal.
    assert (H : main.user_service_create_user e n a s t
                = (inl (App AppBaseException msg), t)).
    { rewrite create_user_eq, He. unfold msg. vm_compute. reflexivity. }
    split; [exact H |]. split; [reflexivity |].
    unfold main.request_post_users, routes.UserCreateRequest_init.
    rewrite He. repeat split.
  - intros e' He.
    unfold main.request_post_users, routes.UserCreateRequest_init.
    rewrite He. split; reflexivity.
Qed.

End Extras2.

(** X5 in the scenario: Ann is returned by her email. *)
Lemma create_then_get_by_email_witness :
  main.user_service_get_user_by_email (P := validators.verbatim)
    (lit "a@b.com") [scenario.ann_row]
  = (inr (User_dict scenario.ann), [scenario.ann_row]).
Proof.
  exact (proj1 (proj2 (create_then_get_by_email (P := validators.verbatim)
                         (lit "a@b.com") (lit "Ann") 25 ACTIVE empty_table
                         [scenario.ann_row] scenario.ann
                         verbatim_stable create_ann))).
Defined.

(** X6 in the scenario. *)
Lemma create_then_get_user_info_witness :
  exists uid,
    id scenario.ann = Some uid
    /\ main.user_service_get_user_info (P := validators.verbatim) uid
         [scenario.ann_row]
       = (inr [ (lit "id", VInt uid);
                (lit "email", VStr (lit "a@b.com"));
                (lit "name", VStr (lit "Ann"));
                (lit "age", VInt 25);
                (lit "status", VStr (lit "active")) ], [scenario.ann_row]).
Proof.
  destruct (create_then_get_user_info (P := validators.verbatim)
              (lit "a@b.com") (lit "Ann") 25 ACTIVE empty_table
              [scenario.ann_row] scenario.ann verbatim_stable create_ann)
    as (uid & Hid & Hinfo & _).
  exists uid. split; [exact Hid | exact Hinfo].
Defined.

(** X7 in the table holding Ann, for her email and for another. *)
Lemma email_lookups_agree_witness :
  sql.email_exists (lit "c@d.org") [scenario.ann_row]
  = (inr false, [scenario.ann_row])
  /\ sql.email_exists (lit "a@b.com") [scenario.ann_row]
     = (inr true, [scenario.ann_row]).
Proof.
  split.
  - destruct (email_lookups_agree (P := validators.verbatim)
                [scenario.ann_row] (lit "c@d.org")
                verbatim_stable reachable_ann) as [[H _] | [H _]].
    + vm_compute in H. discriminate.
    + exact H.
  - destruct (email_lookups_agree (P := validators.verbatim)
                [scenario.ann_row] (lit "a@b.com")
                verbatim_stable reachable_ann) as [[H _] | [H _]].
    + exact H.
    + vm_compute in H. discriminate.
Defined.

(** X8 at a user of age 17. *)
Lemma validators_agree_with_save_witness :
  userService.validate_user_age 17
  = inl (InvalidAgeException_init age_message).
Proof.
  apply (proj2 (validators_agree_with_save
                  (mkUser None (lit "a@b.com") (lit "Ann") ACTIVE 17))).
  simpl. lia.
Defined.

(** X9 at a name of a tab, a no-break space and an ideographic space. *)
Lemma blank_name_all_whitespace_witness :
  sql.save (mkUser None (lit "a@b.com") [9; 160; 12288]%N ACTIVE 40)
    empty_table
  = (inl (InvalidUserNameException_init name_message), empty_table).
Proof.
  apply (proj2 (blank_name_all_whitespace [9; 160; 12288]%N)
           (mkUser None (lit "a@b.com") [9; 160; 12288]%N ACTIVE 40)
           empty_table eq_refl).
  - simpl. lia.
  - vm_compute. reflexivity.
Defined.

(** X10 at an address without [@], a blank name and the age 3. *)
Lemma refused_address_generic_error_witness :
  main.user_service_create_user (P := validators.verbatim)
    (lit "not-an-address") (lit " ") 3 ACTIVE [scenario.ann_row]
  = (inl (App AppBaseException
            (base_message ++ lit "Error al crear usuario: "
             ++ validators.error_text "User"
                  [("email"%string, VStr (lit "not-an-address"))])),
     [scenario.ann_row])
  /\ main.request_post_users (P := validators.verbatim)
       (lit "not-an-address") (lit " ") 3 ACTIVE [scenario.ann_row]
     = (inl (Other "ValidationError"
               (validators.error_text "UserCreateRequest"
                  [("email"%string, VStr (lit "not-an-address"))])),
        [scenario.ann_row]).
Proof.
  destruct (proj1 (refused_address_generic_error (P := validators.verbatim)
                     (lit "not-an-address") (lit " ") 3 ACTIVE
                     [scenario.ann_row]) eq_refl)
    as (H1 & _ & _ & H2 & _).
  split; [exact H1 | exact H2].
Defined.

Section Extras3.
Context {P : Pydantic}.

(** X11. [POST /users] ends in one of two ways.  It returns the created
    user, with the next key, the validated address and the text of the
    status, and the table has one more row; or it raises an application
    exception that the handlers answer with 400, 409 or 500, and the table
    is as before.  It never ends in 404 and never in an exception without
    a handler. *)
Theorem post_users_outcomes (req : routes.UserCreateRequest) (t : table) :
  EmailStr_stable P ->
  (exists e',
     EmailStr (routes.req_email req) = Some e'
     /\ main.post_users req t
        = (inr (routes.mkUserResponse (next_id t) e' (routes.req_name req)
                  (routes.req_age req) (value (routes.req_status req))),
           t ++ [mkRow (next_id t) e' (routes.req_name req)
                   (value (routes.req_status req)) (routes.req_age req)]))
  \/ (exists exc resp,
        main.post_users req t = (inl exc, t)
        /\ main.exception_handler exc = Some resp
        /\ In (main.status_code resp) [400; 409; 500]).
Proof.
  intros Hst. destruct req as [e n a s]. simpl. rewrite post_users_eq. simpl.
  destruct (main.user_service_create_user e n a s t) as [[exc | u] t'] eqn:H.
  - right. pose proof (create_user_failure _ _ _ _ _ _ _ H) as ->.
    rewrite create_user_eq in H.
    destruct (EmailStr e) as [e' |].
    + destruct (sql.save (mkUser None e' n s a) t) as [[exc0 | u'] t1] eqn:Hs;
        [| discriminate].
      apply save_raises in Hs.
      destruct Hs as [_ [-> | [-> | [-> | [-> | ->]]]]];
        injection H as <-; eexists; eexists; (split; [reflexivity |]);
        (split; [reflexivity | simpl; tauto]).
    + injection H as <-.
      destruct (wrapped_class "Error al crear usuario: "
                  (Other "ValidationError"
                     (ValidationError_str "User"
                        [("email"%string, VStr e)]))) as [m ->].
      eexists; eexists. split; [reflexivity |].
      split; [reflexivity | simpl; tauto].
  - left. apply create_user_success in H.
    destruct H as (e' & He & _ & _ & _ & -> & ->).
    exists e'. split; [exact He |].
    rewrite response_of_created; [reflexivity | now apply (Hst e)].
Qed.

(** X12. On a reachable table [GET /users/{id}] answers every stored id
    with the fields of its row, the status as stored; for an id that is
    not stored it raises [UserNotFoundException], saying that the id was
    not found when the id fits in 64 bits and reporting the error of the
    driver when it does not.  The table is left as it is. *)
Theorem get_users_id_outcomes (t : table) (i : Z) :
  EmailStr_stable P -> reachable t ->
  (exists r,
     In r t /\ row_id r = i
     /\ main.get_users_id i t
        = (inr (routes.mkUserResponse i (row_email r) (row_name r)
                  (row_age r) (row_status r)), t))
  \/ (~ In i (List.map row_id t) /\ fits_int64 i = true
      /\ main.get_users_id i t
         = (inl (UserNotFoundException_init (not_found_message i)), t))
  \/ (~ In i (List.map row_id t) /\ fits_int64 i = false
      /\ main.get_users_id i t
         = (inl (UserNotFoundException_init
                   (lit "Error al buscar usuario: "
                    ++ lit "Python int too large to convert to SQLite INTEGER")),
            t)).
Proof.
  intros Hst Hr.
  destruct (in_dec Z.eq_dec i (List.map row_id t)) as [Hin | Hnot].
  - left. apply in_map_iff in Hin. destruct Hin as [r [Hi Hin]].
    destruct (stored_row_rebuilt t r Hst Hr Hin)
      as (s & Hs & Hfind).
    exists r. split; [exact Hin |]. split; [exact Hi |].
    rewrite get_users_id_eq, get_user_by_id_eq. subst i. rewrite Hfind.
    destruct (reachable_inv t Hr) as (_ & _ & Hall).
    rewrite Forall_forall in Hall.
    destruct (Hall r Hin) as (_ & _ & _ & [e0 He0]).
    rewrite response_of_created; [now rewrite Hs | now apply (Hst e0)].
  - right. destruct (fits_int64 i) eqn:Hfit.
    + left. split; [exact Hnot |]. split; [reflexivity |].
      rewrite get_users_id_eq, get_user_by_id_eq.
      now rewrite (find_by_id_missing_id i t Hfit Hnot).
    + right. split; [exact Hnot |]. split; [reflexivity |].
      rewrite get_users_id_eq, get_user_by_id_eq.
      now rewrite (find_by_id_overflow i t Hfit).
Qed.

(** X13. Nothing stored is ever changed or removed: whatever
    [create_user] is called with, a user that [find_by_id] returned before
    the call is returned unchanged after it, and an email that
    [email_exists] reported before is still reported. *)
Theorem stored_users_persist
        (t : table) (i : Z) (u : User) (e n : str) (a : Z) (s : UserStatus) :
  sql.find_by_id i t = (inr u, t) ->
  let t' := store_after (main.user_service_create_user e n a s t) in
  sql.find_by_id i t' = (inr u, t')
  /\ (forall e0,
        sql.email_exists e0 t = (inr true, t) ->
        sql.email_exists e0 t' = (inr true, t')).
Proof.
  intros Hf t'.
  assert (Hgrow : exists l, t' = t ++ l).
  { unfold t'.
    destruct (main.user_service_create_user e n a s t) as [[exc | u'] t1]
      eqn:H; simpl.
    - apply create_user_failure in H. exists []. now rewrite app_nil_r.
    - apply create_user_success in H.
      destruct H as (e' & _ & _ & _ & _ & _ & ->). eauto. }
  destruct Hgrow as [l ->]. split.
  - unfold sql.find_by_id, try_except, lift in *.
    destruct (negb (fits_int64 i)); [discriminate |].
    destruct (select_where_id i t) as [r |] eqn:Hsel; [| discriminate].
    rewrite (select_where_id_app _ _ l _ Hsel).
    destruct (sql.user_of_row r) as [e0 | u0].
    + destruct (catches [UserNotFoundException] e0); discriminate.
    + now injection Hf as ->.
  - intros e0. rewrite !email_exists_eq, existsb_app.
    intros [= ->]. reflexivity.
Qed.

(** X14. Duplicates are detected on the validated address, not on the
    submitted text: after a successful [create_user], every later call
    whose address validates to the same stored address, with a valid name
    and age, raises [DuplicateEmailException] and writes nothing. *)
Theorem duplicate_on_validated_address
        (e1 e2 n1 n2 : str) (a1 a2 : Z) (s1 s2 : UserStatus)
        (t t1 : table) (u : User) :
  main.user_service_create_user e1 n1 a1 s1 t = (inr u, t1) ->
  EmailStr e2 = EmailStr e1 -> 18 <= a2 -> strip n2 <> [] ->
  main.user_service_create_user e2 n2 a2 s2 t1
  = (inl (DuplicateEmailException_init duplicate_message), t1).
Proof.
  intros H He Ha Hn. apply create_user_success in H.
  destruct H as (e' & He1 & _ & _ & _ & _ & ->).
  apply (create_user_duplicate e2 e'); try assumption;
    [congruence |].
  rewrite existsb_app. simpl. unfold has_email at 2. simpl.
  rewrite str_eqb_refl. now rewrite orb_true_r.
Qed.

(** X15. [find_by_id] raises nothing but [UserNotFoundException] and
    never writes.  When the row is found but cannot be rebuilt into a
    [User] (its status is no member's value, or its email is refused),
    the failure is reported as [UserNotFoundException] with the text of
    the failure behind "Error al buscar usuario: ", which the handler
    answers with 404; for an id that does not fit in 64 bits the failure
    reported is the one of the driver, whatever the table holds. *)
Theorem find_by_id_reports_not_found (i : Z) (t : table) :
  ((exists u, sql.find_by_id i t = (inr u, t))
   \/ (exists m,
         sql.find_by_id i t = (inl (UserNotFoundException_init m), t)
         /\ option_map main.status_code
              (main.exception_handler (UserNotFoundException_init m))
            = Some 404))
  /\ (forall r e0,
        select_where_id i t = Some r -> sql.user_of_row r = inl e0 ->
        sql.find_by_id i t
        = (inl (UserNotFoundException_init
                  (lit "Error al buscar usuario: "
                   ++ str_exc (if fits_int64 i then e0 else OverflowError))),
           t)).
Proof.
  split.
  - pose proof (find_by_id_state i t) as Hst.
    destruct (sql.find_by_id i t) as [[exc | u] t'] eqn:H;
      simpl in Hst; subst t'.
    + right. destruct (find_by_id_raises _ _ _ _ H) as [_ [m ->]].
      exists m. split; reflexivity.
    + left. eauto.
  - intros r e0 Hsel Hrow.
    destruct (fits_int64 i) eqn:Hi;
      [| now rewrite (find_by_id_overflow i t Hi)].
    unfold sql.find_by_id, try_except, lift. rewrite Hi, Hsel, Hrow.
    unfold sql.user_of_row, models.User_init in Hrow.
    destruct (UserStatus_of_value (row_status r)) as [e1 | s] eqn:Hs.
    + injection Hrow as <-. unfold UserStatus_of_value in Hs.
      destruct (str_eqb _ _); [discriminate |].
      destruct (str_eqb _ _); [discriminate |].
      injection Hs as <-. reflexivity.
    + destruct (EmailStr (row_email r)); [discriminate |].
      injection Hrow as <-. reflexivity.
Qed.

(** X16. The repository's [get_user_by_email] never raises and never
    writes: it returns the dictionary of the first row with the email, or
    a dictionary whose only key is ['error'].  Over it, the service's
    [get_user_by_email] raises nothing but [UserNotFoundException]. *)
Theorem get_user_by_email_error_as_value (e : str) (t : table) :
  (exists d,
     sql.get_user_by_email e t = (inr d, t)
     /\ ((exists msg, d = [(lit "error", VStr msg)])
         \/ (exists r u,
               select_where_email e t = Some r
               /\ sql.user_of_row r = inr u /\ d = User_dict u)))
  /\ (forall exc t',
        main.user_service_get_user_by_email e t = (inl exc, t') ->
        t' = t /\ exists m, exc = UserNotFoundException_init m).
Proof.
  assert (Hrepo : exists d,
     sql.get_user_by_email e t = (inr d, t)
     /\ ((exists msg, d = [(lit "error", VStr msg)])
         \/ (exists r u,
               select_where_email e t = Some r
               /\ sql.user_of_row r = inr u /\ d = User_dict u))).
  { unfold sql.get_user_by_email, try_except, bind, lift, ret.
    destruct (select_where_email e t) as [r |].
    - destruct (sql.user_of_row r) as [exc | u] eqn:Hu.
      + destruct (catches _ exc);
          eexists; (split; [reflexivity | left; eexists; reflexivity]).
      + eexists. split; [reflexivity |]. right. eauto.
    - eexists. split; [reflexivity |]. left. eexists. reflexivity. }
  split; [exact Hrepo |].
  intros exc t'. destruct Hrepo as (d & Hd & Hshape).
  unfold main.user_service_get_user_by_email.
  destruct (dict_get (lit "error") d) as [err |] eqn:He.
  - rewrite (get_user_by_email_sentinel
               (repo := main.user_repository) _ _ _ _ _ Hd He).
    intros [= <- <-]. split; [reflexivity | eauto].
  - rewrite (get_user_by_email_returns
               (repo := main.user_repository) _ _ _ _ Hd);
      [discriminate | unfold dict_contains; now rewrite He].
Qed.

End Extras3.

(** X11 at a repeat of the request of the specification: the answer is
    an error with a handler. *)
Lemma post_users_outcomes_witness :
  exists exc resp,
    main.post_users (P := validators.verbatim)
      (routes.mkUserCreateRequest (lit "a@b.com") (lit "Ann") 25 ACTIVE)
      [scenario.ann_row]
    = (inl exc, [scenario.ann_row])
    /\ main.exception_handler exc = Some resp
    /\ In (main.status_code resp) [400; 409; 500].
Proof.
  destruct (post_users_outcomes (P := validators.verbatim)
              (routes.mkUserCreateRequest (lit "a@b.com") (lit "Ann") 25
                 ACTIVE)
              [scenario.ann_row] verbatim_stable)
    as [(e' & _ & H) | H].
  - vm_compute in H. discriminate.
  - exact H.
Defined.

(** X12 in the table holding Ann, for her id and for an id beyond 64
    bits. *)
Lemma get_users_id_outcomes_witness :
  main.get_users_id (P := validators.verbatim) 1 [scenario.ann_row]
  = (inr (routes.mkUserResponse 1 (lit "a@b.com") (lit "Ann") 25
            (lit "active")), [scenario.ann_row])
  /\ main.get_users_id (P := validators.verbatim) 9223372036854775808
       [scenario.ann_row]
     = (inl (UserNotFoundException_init
               (lit "Error al buscar usuario: "
                ++ lit "Python int too large to convert to SQLite INTEGER")),
        [scenario.ann_row]).
Proof.
  split.
  - destruct (get_users_id_outcomes (P := validators.verbatim)
                [scenario.ann_row] 1 verbatim_stable reachable_ann)
      as [(r & Hin & Hi & H) | [[Hnot _] | [Hnot _]]].
    + destruct Hin as [<- | []]. exact H.
    + exfalso. apply Hnot. simpl. tauto.
    + exfalso. apply Hnot. simpl. tauto.
  - destruct (get_users_id_outcomes (P := validators.verbatim)
                [scenario.ann_row] 9223372036854775808
                verbatim_stable reachable_ann)
      as [(r & Hin & Hi & H) | [(_ & Hf & _) | (_ & _ & H)]].
    + destruct Hin as [<- | []]. vm_compute in Hi. discriminate.
    + vm_compute in Hf. discriminate.
    + exact H.
Defined.

(** X13: Ann is still found after Bob is created. *)
Lemma stored_users_persist_witness :
  sql.find_by_id (P := validators.verbatim) 1
    [scenario.ann_row;
     mkRow 2 (lit "bob@b.com") (lit "Bob") (lit "inactive") 18]
  = (inr scenario.ann,
     [scenario.ann_row;
      mkRow 2 (lit "bob@b.com") (lit "Bob") (lit "inactive") 18]).
Proof.
  apply (stored_users_persist (P := validators.verbatim)
           [scenario.ann_row] 1 scenario.ann
           (lit "bob@b.com") (lit "Bob") 18 INACTIVE).
  vm_compute. reflexivity.
Defined.

(** X14 with a validator that rewrites the address: "Ann@EXAMPLE.com" is
    stored, "Ann@Example.COM" is then refused as a duplicate. *)
Lemma duplicate_on_validated_address_witness :
  main.user_service_create_user (P := validators.normalising)
    (lit "Ann@Example.COM") (lit "Ann B") 31 ACTIVE
    [mkRow 1 (lit "Ann@example.com") (lit "Ann") (lit "active") 25]
  = (inl (DuplicateEmailException_init duplicate_message),
     [mkRow 1 (lit "Ann@example.com") (lit "Ann") (lit "active") 25]).
Proof.
  apply (duplicate_on_validated_address (P := validators.normalising)
           (lit "Ann@EXAMPLE.com") (lit "Ann@Example.COM")
           (lit "Ann") (lit "Ann B") 25 31 ACTIVE ACTIVE empty_table
           [mkRow 1 (lit "Ann@example.com") (lit "Ann") (lit "active") 25]
           (mkUser (Some 1) (lit "Ann@example.com") (lit "Ann") ACTIVE 25)).
  - vm_compute. reflexivity.
  - vm_compute. reflexivity.
  - lia.
  - vm_compute. discriminate.
Defined.

(** X15 at a row whose status text is no member's value. *)
Lemma find_by_id_reports_not_found_witness :
  sql.find_by_id (P := validators.verbatim) 7
    [mkRow 7 (lit "a@b.com") (lit "Ann") (lit "banned") 25]
  = (inl (UserNotFoundException_init
            (lit "Error al buscar usuario: "
             ++ lit "'banned' is not a valid UserStatus")),
     [mkRow 7 (lit "a@b.com") (lit "Ann") (lit "banned") 25]).
Proof.
  apply (proj2 (find_by_id_reports_not_found (P := validators.verbatim) 7
                  [mkRow 7 (lit "a@b.com") (lit "Ann") (lit "banned") 25])
           (mkRow 7 (lit "a@b.com") (lit "Ann") (lit "banned") 25)
           (Other "ValueError" (lit "'banned' is not a valid UserStatus")));
    vm_compute; reflexivity.
Defined.

(** X16 at an email without a row: the service raises
    [UserNotFoundException]. *)
Lemma get_user_by_email_error_as_value_witness :
  exists m,
    App UserNotFoundException
      (base_message ++ base_message ++ base_message ++ base_message
       ++ no_such_email_message (lit "c@d.org"))
    = UserNotFoundException_init m.
Proof.
  apply (proj2 (get_user_by_email_error_as_value (P := validators.verbatim)
                  (lit "c@d.org") [scenario.ann_row])
           _ [scenario.ann_row]).
  vm_compute. reflexivity.
Defined.

(** ** What the service lets through *)

Lemma catches_application_error (l : list exc_class) (e : pyexc) :
  catches l e = true -> is_application_error e.
Proof.
  destruct e as [c m | c x]; [intros _; now exists c, m |].
  unfold catches. intros H. apply existsb_exists in H.
  destruct H as [c0 [_ H]]. discriminate.
Qed.

Lemma wrapped_application_error (prefix : string) (e : pyexc) :
  is_application_error (userService.wrapped prefix e).
Proof.
  destruct (wrapped_class prefix e) as [m ->]. now exists AppBaseException, m.
Qed.

(** Behind an [except] clause that re-raises some classes and wraps the
    rest, only application errors come out. *)
Lemma guarded_raises_application_error
      {R A : Type} (m : M R A) (l : list exc_class) (prefix : string)
      (st st' : R) (exc : pyexc) :
  try_except m
    (fun e => if catches l e then raise e
              else raise (userService.wrapped prefix e)) st
  = (inl exc, st') ->
  is_application_error exc.
Proof.
  unfold try_except. destruct (m st) as [[e0 | v] st1]; [| discriminate].
  destruct (catches l e0) eqn:Hc; unfold raise; intros [= <- _].
  - now apply catches_application_error in Hc.
  - apply wrapped_application_error.
Qed.

Section Extras4.
Context {P : Pydantic} {R : Type} {repo : base.UserRepository R}.

(** X17. Whatever the repository does, the service lets no exception of
    a library through: every exception raised by [create_user],
    [get_user_by_id], [get_user_by_email], [email_exists],
    [update_user_status] and [get_user_info] is an application error, so
    a handler is registered for it. *)
Theorem service_raises_application_errors :
  (forall e n a s st exc st',
     userService.create_user e n a s st = (inl exc, st') ->
     is_application_error exc /\ main.exception_handler exc <> None)
  /\ (forall i st exc st',
        userService.get_user_by_id i st = (inl exc, st') ->
        is_application_error exc /\ main.exception_handler exc <> None)
  /\ (forall e st exc st',
        userService.get_user_by_email e st = (inl exc, st') ->
        is_application_error exc /\ main.exception_handler exc <> None)
  /\ (forall e st exc st',
        userService.email_exists e st = (inl exc, st') ->
        is_application_error exc /\ main.exception_handler exc <> None)
  /\ (forall i s st exc st',
        userService.update_user_status i s st = (inl exc, st') ->
        is_application_error exc /\ main.exception_handler exc <> None)
  /\ (forall i st exc st',
        userService.get_user_info i st = (inl exc, st') ->
        is_application_error exc /\ main.exception_handler exc <> None).
Proof.
  assert (Hh : forall exc, is_application_error exc ->
               is_application_error exc /\ main.exception_handler exc <> None).
  { intros exc H. split; [exact H |]. destruct H as (c & m & ->).
    destruct c; discriminate. }
  split; [| split; [| split; [| split; [| split]]]].
  - intros e n a s st exc st' H. apply Hh.
    unfold userService.create_user in H.
    now apply guarded_raises_application_error in H.
  - intros i st exc st' H. apply Hh.
    unfold userService.get_user_by_id in H.
    now apply guarded_raises_application_error in H.
  - intros e st exc st' H. apply Hh.
    unfold userService.get_user_by_email in H.
    now apply guarded_raises_application_error in H.
  - intros e st exc st' H. apply Hh.
    unfold userService.email_exists, try_except in H.
    destruct (bind _ _ st) as [[e0 | v] st1]; [| discriminate].
    unfold raise in H. injection H as <- _. apply wrapped_application_error.
  - intros i s st exc st' H. apply Hh.
    unfold userService.update_user_status in H.
    now apply guarded_raises_application_error in H.
  - intros i st exc st' H. apply Hh.
    unfold userService.get_user_info in H.
    now apply guarded_raises_application_error in H.
Qed.

(** X18. Only the listed classes pass the service unchanged.  An
    exception of [save] outside the three validation classes, a
    [UserNotFoundException] included, comes out of [create_user] wrapped
    in [AppBaseException] behind "Error al crear usuario: "; every
    exception of the repository's [email_exists] comes out of the
    service's [email_exists] wrapped behind "Error al verificar email: ".
    The handler answers both with 500. *)
Theorem service_wraps_other_errors :
  (forall e n a s u st exc st',
     models.User_init None e n s a = inr u ->
     base.save u st = (inl exc, st') ->
     catches validation_classes exc = false ->
     userService.create_user e n a s st
     = (inl (userService.wrapped "Error al crear usuario: " exc), st')
     /\ option_map main.status_code
          (main.exception_handler
             (userService.wrapped "Error al crear usuario: " exc))
        = Some 500)
  /\ (forall e st exc st',
        base.email_exists e st = (inl exc, st') ->
        userService.email_exists e st
        = (inl (userService.wrapped "Error al verificar email: " exc), st')
        /\ option_map main.status_code
             (main.exception_handler
                (userService.wrapped "Error al verificar email: " exc))
           = Some 500).
Proof.
  split.
  - intros e n a s u st exc st' Hu Hs Hc. split.
    + unfold userService.create_user, try_except, bind, lift.
      rewrite Hu, Hs. fold validation_classes. now rewrite Hc.
    + destruct (wrapped_class "Error al crear usuario: " exc) as [m ->].
      reflexivity.
  - intros e st exc st' H. split.
    + unfold userService.email_exists, try_except, bind. now rewrite H.
    + destruct (wrapped_class "Error al verificar email: " exc) as [m ->].
      reflexivity.
Qed.

End Extras4.

Section Extras5.
Context {P : Pydantic}.

(** X19. What is stored stays well formed: in every reachable table no
    name is blank, every status is the text "active" or "inactive", every
    email is an address the validator returned, and no key occurs
    twice. *)
Theorem stored_rows_well_formed (t : table) :
  reachable t ->
  Forall (fun r =>
            forallb isspace (row_name r) = false
            /\ (row_status r = lit "active" \/ row_status r = lit "inactive")
            /\ exists e, EmailStr e = Some (row_email r)) t
  /\ NoDup (List.map row_id t).
Proof.
  intros Hr. destruct (reachable_inv t Hr) as (Hid & _ & Hall).
  split; [| exact Hid].
  eapply Forall_impl; [| exact Hall].
  intros r (_ & Hn & [s Hs] & He). repeat split.
  - destruct (forallb isspace (row_name r)) eqn:Hb; [| reflexivity].
    apply strip_nil_iff in Hb. contradiction.
  - destruct s; [left | right]; exact Hs.
  - exact He.
Qed.

End Extras5.

(** X17 over the SQL repository, at a refused address. *)
Lemma service_raises_application_errors_witness :
  is_application_error
    (userService.wrapped "Error al crear usuario: "
       (Other "ValidationError"
          (validators.error_text "User"
             [("email"%string, VStr (lit "not-an-address"))]))).
Proof.
  apply (proj1 (service_raises_application_errors
                  (P := validators.verbatim)
                  (repo := main.user_repository (P := validators.verbatim)))
           (lit "not-an-address") (lit "Ann") 25 ACTIVE empty_table _
           empty_table).
  vm_compute. reflexivity.
Defined.

(** X18 over a repository whose storage is out of reach. *)
Lemma service_wraps_other_errors_witness :
  userService.create_user (P := validators.verbatim)
    (user_repository := unreachable_repository)
    (lit "a@b.com") (lit "Ann") 25 ACTIVE tt
  = (inl (userService.wrapped "Error al crear usuario: "
            (UserNotFoundException_init
               (lit "Error al guardar usuario: connection lost"))), tt)
  /\ userService.email_exists (user_repository := unreachable_repository)
       (lit "a@b.com") tt
     = (inl (userService.wrapped "Error al verificar email: "
               (UserNotFoundException_init
                  (lit "Error al verificar email: connection lost"))), tt).
Proof.
  split.
  - apply (proj1 (service_wraps_other_errors (P := validators.verbatim)
                    (repo := unreachable_repository))
             (lit "a@b.com") (lit "Ann") 25 ACTIVE
             (mkUser None (lit "a@b.com") (lit "Ann") ACTIVE 25) tt _ tt);
      vm_compute; reflexivity.
  - apply (proj2 (service_wraps_other_errors (P := validators.verbatim)
                    (repo := unreachable_repository))
             (lit "a@b.com") tt _ tt).
    vm_compute. reflexivity.
Defined.

(** X19 in the table holding Ann. *)
Lemma stored_rows_well_formed_witness :
  NoDup (List.map row_id [scenario.ann_row]).
Proof.
  exact (proj2 (stored_rows_well_formed (P := validators.verbatim)
                  [scenario.ann_row] reachable_ann)).
Defined.

Section Extras6.
Context {P : Pydantic}.


End Extras6.

